(** * RDS snapshot export Lambda handlers

    A shallow embedding of the two Lambda entry points of the repository:

    - the handler that starts an export task for an existing snapshot
      (module [StartExport] below, the file with the module-level
      [SourceArn], [S3BucketName], [IamRoleArn] and [KmsKeyId] constants);
    - the handler of [src/index.ts] that creates an Aurora cluster snapshot,
      waits for it and exports it (module [CreateExport] below).

    Both are [async] functions whose only effects are reads of
    [process.env], reads of the clock and requests to the AWS SDK.  They are
    embedded in a small state-and-exception monad [JS] over an arbitrary
    runtime: the runtime answers every SDK request (resolving or rejecting
    the promise) and may change the clock and the environment while a
    request is in flight.  Every request is appended to a trace together
    with its outcome, so that ordering properties are statements about the
    trace.

    Modelling choices.
    - Strings are Rocq strings (sequences of bytes); JavaScript numbers that
      occur are integers and are modelled by [Z].
    - The SDK rejects its promises with [Error] instances (service
      exceptions, the waiter's [TimeoutError], transport errors): a
      rejection carries the [message] of the error and its own enumerable
      properties.
    - The commands and the waiter are those the handlers import from the
      SDK; what they do is the runtime's part.  The SDK package has no
      [ExportDBClusterSnapshotToS3Command]: constructing it throws.
    - [console.log] and [console.error] lines are left out: they write to
      the log only. *)

From stdpp Require Import gmap strings list fin_maps.
From Stdlib Require Import ZArith Lia Ascii String DecimalString DecimalZ DecimalPos.

Local Open Scope Z_scope.
Set Warnings "-register-all".

(** * JavaScript values *)

(** The values that flow through the handlers.  An object is the list of its
    own enumerable string-keyed properties in creation order.  An [Error]
    instance has, besides those, its [message], which is an own property
    that is not enumerable. *)
Inductive JsValue : Type :=
| JsUndefined
| JsNull
| JsBool (b : bool)
| JsNumber (n : Z)
| JsString (s : string)
| JsArray (items : list JsValue)
| JsObject (props : list (string * JsValue))
| JsErrorObject (message : string) (props : list (string * JsValue)).

(** An [Error] instance, as the SDK rejects with: its message, and its own
    enumerable properties ([name], [$fault], [$metadata], ...). The message
    of [new Error(m)] is not enumerable; an error that has it among its
    enumerable properties has it there as the string [err_message]. *)
Record ErrorInstance : Type := mkError {
  err_message : string;
  err_props : list (string * JsValue)
}.

Definition error_value (e : ErrorInstance) : JsValue :=
  JsErrorObject (err_message e) (err_props e).

(** [new TypeError(msg)]: [name] lives on the prototype, no enumerable
    property. *)
Definition TypeError (msg : string) : JsValue := JsErrorObject msg [].

(** The outcome of evaluating an expression or a statement list. *)
Inductive Completion (A : Type) : Type :=
| Normal (a : A)
| Thrown (e : JsValue).
Arguments Normal {A} a.
Arguments Thrown {A} e.

(** Own property lookup in a property list (the first binding of the key). *)
Fixpoint own_property (k : string) (props : list (string * JsValue)) : option JsValue :=
  match props with
  | [] => None
  | (k', v) :: rest => if String.eqb k k' then Some v else own_property k rest
  end.

(** [v.message]: a [TypeError] on [undefined] and [null], the own property
    of an object, the message of an [Error], and [undefined] on the other
    primitives and on arrays. *)
Definition get_message (v : JsValue) : Completion JsValue :=
  match v with
  | JsUndefined => Thrown (TypeError "Cannot read properties of undefined (reading 'message')")
  | JsNull => Thrown (TypeError "Cannot read properties of null (reading 'message')")
  | JsObject props => Normal (default JsUndefined (own_property "message" props))
  | JsErrorObject m _ => Normal (JsString m)
  | _ => Normal JsUndefined
  end.

(** [a || b] on an environment entry: the entry when it is a non-empty
    string, [b] when it is [undefined] or the empty string. *)
Definition or_else (a : option string) (b : string) : string :=
  match a with
  | Some s => if String.eqb s "" then b else s
  | None => b
  end.

(** A template-literal hole filled with a value that is a string or
    [undefined]. *)
Definition template_hole (a : option string) : string :=
  match a with
  | Some s => s
  | None => "undefined"
  end.

(** [Number::toString] of an integer below 10^21 in absolute value. *)
Definition number_to_string (n : Z) : string :=
  NilZero.string_of_int (Z.to_int n).

(** * JSON.stringify *)

Definition dquote : string := String "034"%char "".

(** [n] as one lowercase hexadecimal digit, for [n] below 16. *)
Definition hex_digit (n : N) : ascii :=
  default "0"%char (String.get (N.to_nat n) "0123456789abcdef").

(** QuoteJSONString, one code unit at a time. *)
Definition quote_char (c : ascii) : string :=
  let n := N_of_ascii c in
  if (n =? 8)%N then "\b"
  else if (n =? 9)%N then "\t"
  else if (n =? 10)%N then "\n"
  else if (n =? 12)%N then "\f"
  else if (n =? 13)%N then "\r"
  else if (n =? 34)%N then "\" +:+ dquote
  else if (n =? 92)%N then "\\"
  else if (n <? 32)%N then
    "\u00" +:+ String (hex_digit (n / 16)) (String (hex_digit (n mod 16)) "")
  else String c "".

Fixpoint quote_chars (s : string) : string :=
  match s with
  | EmptyString => ""
  | String c rest => quote_char c +:+ quote_chars rest
  end.

Definition QuoteJSONString (s : string) : string :=
  dquote +:+ quote_chars s +:+ dquote.

(** A string between double quotes, written as is. *)
Definition quoted (s : string) : string := dquote +:+ s +:+ dquote.

Fixpoint join_comma (parts : list string) : string :=
  match parts with
  | [] => ""
  | [p] => p
  | p :: rest => p +:+ "," +:+ join_comma rest
  end.

(** SerializeJSONProperty without indentation: [None] is [undefined], which
    drops the member of an object and becomes [null] in an array.  An
    [Error] instance is serialized as the object of its enumerable
    properties. *)
Fixpoint JSON_stringify (v : JsValue) : option string :=
  let members :=
    fix members (props : list (string * JsValue)) : list string :=
      match props with
      | [] => []
      | (k, x) :: rest =>
          match JSON_stringify x with
          | Some s => (QuoteJSONString k +:+ ":" +:+ s) :: members rest
          | None => members rest
          end
      end in
  match v with
  | JsUndefined => None
  | JsNull => Some "null"
  | JsBool b => Some (if b then "true" else "false")
  | JsNumber n => Some (number_to_string n)
  | JsString s => Some (QuoteJSONString s)
  | JsArray items =>
      Some ("[" +:+ join_comma (map (fun x => default "null" (JSON_stringify x)) items) +:+ "]")
  | JsObject props => Some ("{" +:+ join_comma (members props) +:+ "}")
  | JsErrorObject _ props => Some ("{" +:+ join_comma (members props) +:+ "}")
  end.

(** The members of an object, as [JSON_stringify] lists them. *)
Fixpoint JSON_members (props : list (string * JsValue)) : list string :=
  match props with
  | [] => []
  | (k, x) :: rest =>
      match JSON_stringify x with
      | Some s => (QuoteJSONString k +:+ ":" +:+ s) :: JSON_members rest
      | None => JSON_members rest
      end
  end.

(** [JSON.stringify] of an object literal: always a string. *)
Definition JSON_stringify_object (props : list (string * JsValue)) : string :=
  "{" +:+ join_comma (JSON_members props) +:+ "}".

(** * Date: the time value and [toISOString]

    A time value is the number of milliseconds since the epoch; the
    definitions are those of the ECMAScript specification (Day,
    DayFromYear, YearFromTime, MonthFromTime, ...), with floor division and
    the floored modulo, which is what [Z.div] and [Z.modulo] compute for a
    positive divisor. *)
Module Date.

Definition msPerDay : Z := 86400000.
Definition msPerHour : Z := 3600000.
Definition msPerMinute : Z := 60000.
Definition msPerSecond : Z := 1000.

(** A [Date] holds a time value of at most 8.64e15 in absolute value;
    [new Date()] always does. *)
Definition valid_time (t : Z) : Prop := - 8640000000000000 <= t <= 8640000000000000.

Definition Day (t : Z) : Z := t / msPerDay.

Definition DaysInYear (y : Z) : Z :=
  if negb (y mod 4 =? 0) then 365
  else if negb (y mod 100 =? 0) then 366
  else if negb (y mod 400 =? 0) then 365
  else 366.

Definition DayFromYear (y : Z) : Z :=
  365 * (y - 1970) + (y - 1969) / 4 - (y - 1901) / 100 + (y - 1601) / 400.

Definition TimeFromYear (y : Z) : Z := msPerDay * DayFromYear y.

(** The largest [y] with [TimeFromYear y <= t], computed from an estimate
    that is off by at most one year (lemma [YearFromTime_spec]). *)
Definition YearFromTime (t : Z) : Z :=
  let y := 1970 + (Day t * 400) / 146097 in
  if Day t <? DayFromYear y then y - 1
  else if DayFromYear (y + 1) <=? Day t then y + 1
  else y.

Definition InLeapYear (t : Z) : Z :=
  if DaysInYear (YearFromTime t) =? 366 then 1 else 0.

Definition DayWithinYear (t : Z) : Z := Day t - DayFromYear (YearFromTime t).

Definition MonthFromTime (t : Z) : Z :=
  let d := DayWithinYear t in
  let leap := InLeapYear t in
  if d <? 31 then 0
  else if d <? 59 + leap then 1
  else if d <? 90 + leap then 2
  else if d <? 120 + leap then 3
  else if d <? 151 + leap then 4
  else if d <? 181 + leap then 5
  else if d <? 212 + leap then 6
  else if d <? 243 + leap then 7
  else if d <? 273 + leap then 8
  else if d <? 304 + leap then 9
  else if d <? 334 + leap then 10
  else 11.

Definition DateFromTime (t : Z) : Z :=
  let d := DayWithinYear t in
  let leap := InLeapYear t in
  match MonthFromTime t with
  | 0 => d + 1
  | 1 => d - 30
  | 2 => d - 58 - leap
  | 3 => d - 89 - leap
  | 4 => d - 119 - leap
  | 5 => d - 150 - leap
  | 6 => d - 180 - leap
  | 7 => d - 211 - leap
  | 8 => d - 242 - leap
  | 9 => d - 272 - leap
  | 10 => d - 303 - leap
  | _ => d - 333 - leap
  end.

Definition HourFromTime (t : Z) : Z := (t / msPerHour) mod 24.
Definition MinFromTime (t : Z) : Z := (t / msPerMinute) mod 60.
Definition SecFromTime (t : Z) : Z := (t / msPerSecond) mod 60.
Definition msFromTime (t : Z) : Z := t mod msPerSecond.

(** The decimal digit [n], for [n] from 0 to 9; then the digits of a
    number, zero padded to a fixed width. *)
Definition digit (n : Z) : ascii :=
  default "0"%char (String.get (Z.to_nat n) "0123456789").

Definition pad2 (n : Z) : string :=
  String (digit (n / 10 mod 10)) (String (digit (n mod 10)) "").
Definition pad3 (n : Z) : string :=
  String (digit (n / 100 mod 10)) (pad2 n).
Definition pad4 (n : Z) : string :=
  String (digit (n / 1000 mod 10)) (pad3 n).
Definition pad6 (n : Z) : string :=
  String (digit (n / 100000 mod 10)) (String (digit (n / 10000 mod 10)) (pad4 n)).

(** The year of the date-time string format: four digits for the years
    0 to 9999, a sign and six digits for the others. *)
Definition year_string (y : Z) : string :=
  if (0 <=? y) && (y <=? 9999) then pad4 y
  else if 0 <=? y then "+" +:+ pad6 y
  else "-" +:+ pad6 (- y).

(** [YYYY-MM-DDTHH:mm:ss.sssZ] *)
Definition toISOString (t : Z) : string :=
  year_string (YearFromTime t) +:+ "-" +:+ pad2 (MonthFromTime t + 1) +:+ "-" +:+
  pad2 (DateFromTime t) +:+ "T" +:+ pad2 (HourFromTime t) +:+ ":" +:+
  pad2 (MinFromTime t) +:+ ":" +:+ pad2 (SecFromTime t) +:+ "." +:+
  pad3 (msFromTime t) +:+ "Z".

End Date.

(** [s.replace(/[cls]/g, '')]: every character of the class is removed. *)
Fixpoint remove_chars (cls : list ascii) (s : string) : string :=
  match s with
  | EmptyString => ""
  | String c rest =>
      if bool_decide (c ∈ cls) then remove_chars cls rest
      else String c (remove_chars cls rest)
  end.

(** The character class of [/[-T:.Z]/]. *)
Definition iso_punctuation : list ascii := ["-"; "T"; ":"; "."; "Z"]%char.

(** * The requests to the SDK *)

Module CreateDBClusterSnapshot.
Record Input : Type := {
  DBClusterIdentifier : option string;
  DBClusterSnapshotIdentifier : option string
}.
End CreateDBClusterSnapshot.

(** The input of the waiter is that of DescribeDBClusterSnapshots. *)
Module DescribeDBClusterSnapshots.
Record Input : Type := {
  DBClusterIdentifier : option string;
  DBClusterSnapshotIdentifier : option string
}.
End DescribeDBClusterSnapshots.

Module ExportDBClusterSnapshotToS3.
Record Input : Type := {
  ExportTaskIdentifier : string;
  SourceDBClusterSnapshotIdentifier : option string;
  S3BucketName : option string;
  IamRoleArn : option string;
  KmsKeyId : option string
}.
End ExportDBClusterSnapshotToS3.

Module StartExportTask.
Record Input : Type := {
  ExportTaskIdentifier : string;
  SourceArn : string;
  S3BucketName : string;
  IamRoleArn : string;
  KmsKeyId : string
}.
End StartExportTask.

(** The waiter's configuration; [client] is the one client of the
    invocation. [maxWaitTime] is in seconds. *)
Record WaiterConfiguration : Type := { maxWaitTime : Z }.

(** What a handler asks of the SDK: [client.send(new ...Command(input))] or
    a call of the waiter. A field that holds [None] is [undefined]: the SDK
    leaves it out of the request it sends. *)
Inductive Request : Type :=
| CreateDBClusterSnapshotCommand (input : CreateDBClusterSnapshot.Input)
| waitUntilDBClusterSnapshotAvailable
    (params : WaiterConfiguration) (input : DescribeDBClusterSnapshots.Input)
| ExportDBClusterSnapshotToS3Command (input : ExportDBClusterSnapshotToS3.Input)
| StartExportTaskCommand (input : StartExportTask.Input).

(** How the promise of a request settles: resolved with an output object,
    or rejected with an [Error]. *)
Inductive Outcome : Type :=
| Resolved (output : list (string * JsValue))
| Rejected (reason : ErrorInstance).

Record Event : Type := mkEvent { ev_request : Request; ev_outcome : Outcome }.

(** The runtime of an invocation over worlds [W]: the environment and the
    clock are read from the world; performing a request settles it and
    gives the world after it. *)
Record Runtime (W : Type) : Type := {
  process_env : W -> gmap string string;
  now : W -> Z;
  perform : Request -> W -> Outcome * W
}.
Arguments process_env {W} _ _.
Arguments now {W} _ _.
Arguments perform {W} _ _ _.

(** The state of an invocation: the world and the requests made so far. *)
Record Exec (W : Type) : Type := mkExec { world : W; trace : list Event }.
Arguments mkExec {W} _ _.
Arguments world {W} _.
Arguments trace {W} _.

(** What a handler returns to the Lambda runtime. *)
Record Response : Type := { statusCode : Z; body : string }.

(** * The monad of handler code *)

Definition JS (W A : Type) : Type := Exec W -> Completion A * Exec W.

Global Instance JS_ret {W} : MRet (JS W) :=
  fun A (a : A) st => (Normal a, st).

Global Instance JS_bind {W} : MBind (JS W) :=
  fun A B (f : A -> JS W B) (m : JS W A) st =>
    match m st with
    | (Normal a, st') => f a st'
    | (Thrown e, st') => (Thrown e, st')
    end.

(** [try { body } catch (error) { handler }] *)
Definition try_catch {W A} (body : JS W A) (handler : JsValue -> JS W A) : JS W A :=
  fun st =>
    match body st with
    | (Normal a, st') => (Normal a, st')
    | (Thrown e, st') => handler e st'
    end.

(** An expression that completes without touching the world. *)
Definition lift {W A} (c : Completion A) : JS W A := fun st => (c, st).

Section Effects.
Context {W : Type} (rt : Runtime W).

(** [process.env.NAME] *)
Definition getenv (name : string) : JS W (option string) :=
  fun st => (Normal (process_env rt (world st) !! name), st).

(** [Date.now()] and the time value of [new Date()] *)
Definition Date_now : JS W Z :=
  fun st => (Normal (now rt (world st)), st).

(** [await] of a request: the request is performed and recorded; a
    rejection is thrown at the [await]. *)
Definition await (r : Request) : JS W (list (string * JsValue)) :=
  fun st =>
    let (o, w') := perform rt r (world st) in
    let st' := mkExec w' (trace st ++ [mkEvent r o]) in
    match o with
    | Resolved output => (Normal output, st')
    | Rejected reason => (Thrown (error_value reason), st')
    end.

(** An invocation starts with no request made. *)
Definition invoke {A} (h : JS W A) (w : W) : Completion A * Exec W :=
  h (mkExec w []).
End Effects.

(** * What the SDK package exports *)

(** Of the names the handlers import from [@aws-sdk/client-rds], those the
    package has. It has no [ExportDBClusterSnapshotToS3Command]: the export
    operation of RDS is StartExportTask. In the compiled module a named
    import that the package does not have is [undefined]. *)
Definition sdk_exports (name : string) : bool :=
  bool_decide (name ∈ ["RDSClient"; "CreateDBClusterSnapshotCommand";
                       "StartExportTaskCommand"; "waitUntilDBClusterSnapshotAvailable"]).

(** The message of the [TypeError] of [new Name(...)] for a [Name] that is
    [undefined]. The wording is the engine's, and a compiler may write the
    name with the binding of the module before it; no theorem below rests
    on the wording. *)
Definition not_a_constructor (name : string) : string :=
  name +:+ " is not a constructor".

(** [new Name(input)]: the command, or the [TypeError]. *)
Definition construct (name : string) (command : Request) : Completion Request :=
  if sdk_exports name then Normal command
  else Thrown (TypeError (not_a_constructor name)).

(** * The handler that starts an export task for an existing snapshot *)
Module StartExport.

(** The constants at the top of the module. They are evaluated once, when
    the module is loaded, against the environment of that moment. *)
Record Constants : Type := {
  SourceArn : string;
  S3BucketName : string;
  IamRoleArn : string;
  KmsKeyId : string
}.

Definition load (env : gmap string string) : Constants := {|
  SourceArn := or_else (env !! "SOURCE_ARN") "";
  S3BucketName := or_else (env !! "S3_BUCKET_NAME") "";
  IamRoleArn := or_else (env !! "IAM_ROLE_ARN") "";
  KmsKeyId := or_else (env !! "KMS_KEY_ID") ""
|}.

(** [`snapshot${new Date().toISOString().replace(/[-T:.Z]/g, '')}`] for
    the time value [t] of [new Date()]. *)
Definition exportTaskIdentifier (t : Z) : string :=
  "snapshot" +:+ remove_chars iso_punctuation (Date.toISOString t).

Definition params (c : Constants) (t : Z) : StartExportTask.Input := {|
  StartExportTask.ExportTaskIdentifier := exportTaskIdentifier t;
  StartExportTask.SourceArn := SourceArn c;
  StartExportTask.S3BucketName := S3BucketName c;
  StartExportTask.IamRoleArn := IamRoleArn c;
  StartExportTask.KmsKeyId := KmsKeyId c
|}.

Section Handler.
Context {W : Type} (rt : Runtime W).

Definition handler (c : Constants) (event : JsValue) : JS W Response :=
  t ← Date_now rt;
  try_catch
    (response ← await rt (StartExportTaskCommand (params c t));
     mret {| statusCode := 200;
             body := JSON_stringify_object
               [("message", JsString "Export task started successfully");
                ("exportTaskIdentifier", JsString (exportTaskIdentifier t))] |})
    (fun error =>
     mret {| statusCode := 500;
             body := JSON_stringify_object
               [("message", JsString "Failed to start export task");
                ("error", error)] |}).
End Handler.

End StartExport.

(** * The handler that creates a snapshot, waits for it and exports it *)
Module CreateExport.

Definition createSnapshotParams (dbClusterIdentifier snapshotName : option string)
  : CreateDBClusterSnapshot.Input := {|
  CreateDBClusterSnapshot.DBClusterIdentifier := dbClusterIdentifier;
  CreateDBClusterSnapshot.DBClusterSnapshotIdentifier := snapshotName
|}.

Definition waiterParams : WaiterConfiguration := {| maxWaitTime := 600 |}.

Definition waiterInput (dbClusterIdentifier snapshotName : option string)
  : DescribeDBClusterSnapshots.Input := {|
  DescribeDBClusterSnapshots.DBClusterIdentifier := dbClusterIdentifier;
  DescribeDBClusterSnapshots.DBClusterSnapshotIdentifier := snapshotName
|}.

(** [`${snapshotName}-export-${Date.now()}`] *)
Definition exportTaskIdentifier (snapshotName : option string) (t : Z) : string :=
  template_hole snapshotName +:+ "-export-" +:+ number_to_string t.

Definition exportParams (snapshotName s3BucketName exportIamRoleArn kmsKeyId : option string)
    (t : Z) : ExportDBClusterSnapshotToS3.Input := {|
  ExportDBClusterSnapshotToS3.ExportTaskIdentifier := exportTaskIdentifier snapshotName t;
  ExportDBClusterSnapshotToS3.SourceDBClusterSnapshotIdentifier := snapshotName;
  ExportDBClusterSnapshotToS3.S3BucketName := s3BucketName;
  ExportDBClusterSnapshotToS3.IamRoleArn := exportIamRoleArn;
  ExportDBClusterSnapshotToS3.KmsKeyId := kmsKeyId
|}.

Definition success_message : string :=
  "Aurora snapshot export to S3 initiated successfully.".
Definition failure_message : string :=
  "Failed to create or export DB cluster snapshot.".

Section Handler.
Context {W : Type} (rt : Runtime W).

Definition handler (event : JsValue) : JS W Response :=
  dbClusterIdentifier ← getenv rt "DB_CLUSTER_IDENTIFIER";
  snapshotName ← getenv rt "SNAPSHOT_NAME";
  s3BucketName ← getenv rt "S3_BUCKET_NAME";
  exportIamRoleArn ← getenv rt "IAM_ROLE_ARN";
  kmsKeyId ← getenv rt "KMS_KEY_ID";
  try_catch
    (await rt (CreateDBClusterSnapshotCommand
                 (createSnapshotParams dbClusterIdentifier snapshotName));;
     await rt (waitUntilDBClusterSnapshotAvailable waiterParams
                 (waiterInput dbClusterIdentifier snapshotName));;
     t ← Date_now rt;
     command ← lift (construct "ExportDBClusterSnapshotToS3Command"
                 (ExportDBClusterSnapshotToS3Command
                    (exportParams snapshotName s3BucketName exportIamRoleArn kmsKeyId t)));
     exportResult ← await rt command;
     mret {| statusCode := 200;
             body := JSON_stringify_object
               [("message", JsString success_message);
                ("exportTaskIdentifier",
                 default JsUndefined (own_property "ExportTaskIdentifier" exportResult))] |})
    (fun error =>
     message ← lift (get_message error);
     mret {| statusCode := 500;
             body := JSON_stringify_object
               [("message", JsString failure_message);
                ("error", message)] |}).
End Handler.

End CreateExport.

(** * A scripted runtime

    A world that holds an environment, a clock and the outcomes of the
    requests to come, in order. A request takes the next outcome (it
    resolves with an empty output when none is left) and one second. *)
Record Scripted : Type := {
  sc_env : gmap string string;
  sc_clock : Z;
  sc_script : list Outcome
}.

Definition scripted : Runtime Scripted := {|
  process_env := sc_env;
  now := sc_clock;
  perform := fun _ w =>
    match sc_script w with
    | [] => (Resolved [], {| sc_env := sc_env w; sc_clock := sc_clock w + 1000; sc_script := [] |})
    | o :: rest => (o, {| sc_env := sc_env w; sc_clock := sc_clock w + 1000; sc_script := rest |})
    end
|}.

(** A runtime that empties the environment at every request and resolves
    it. *)
Definition forgetful : Runtime (gmap string string * Z) := {|
  process_env := fst;
  now := snd;
  perform := fun _ w => (Resolved [], (∅, w.2 + 1000))
|}.

(** * Observations on a run *)

Definition is_create (r : Request) : bool :=
  match r with CreateDBClusterSnapshotCommand _ => true | _ => false end.
Definition is_wait (r : Request) : bool :=
  match r with waitUntilDBClusterSnapshotAvailable _ _ => true | _ => false end.
Definition is_export (r : Request) : bool :=
  match r with ExportDBClusterSnapshotToS3Command _ => true | _ => false end.

Definition resolved (o : Outcome) : bool :=
  match o with Resolved _ => true | Rejected _ => false end.

(** Every request made succeeded. *)
Definition all_resolved (tr : list Event) : bool :=
  forallb (fun ev => resolved (ev_outcome ev)) tr.

(** The handler returned (it did not throw) a response with this status. *)
Definition returns_status (c : Completion Response) (code : Z) : Prop :=
  exists r, c = Normal r /\ statusCode r = code.

(** In the trace, every request of the kind [later] is made after a request
    of the kind [earlier] was acknowledged. *)
Definition after_acknowledged (earlier later : Request -> bool) (tr : list Event) : Prop :=
  forall i ev, tr !! i = Some ev -> later (ev_request ev) = true ->
    exists j ev', (j < i)%nat /\ tr !! j = Some ev' /\
      earlier (ev_request ev') = true /\ resolved (ev_outcome ev') = true.

(** The export task identifier a request carries. *)
Definition request_identifier (r : Request) : option string :=
  match r with
  | ExportDBClusterSnapshotToS3Command input =>
      Some (ExportDBClusterSnapshotToS3.ExportTaskIdentifier input)
  | StartExportTaskCommand input => Some (StartExportTask.ExportTaskIdentifier input)
  | _ => None
  end.

(** The value a request sends for [KmsKeyId]; [None] when the request goes
    out without the field. *)
Definition sent_KmsKeyId (r : Request) : option string :=
  match r with
  | ExportDBClusterSnapshotToS3Command input => ExportDBClusterSnapshotToS3.KmsKeyId input
  | StartExportTaskCommand input => Some (StartExportTask.KmsKeyId input)
  | _ => None
  end.

(** The request carries, in each of its configuration fields, what the
    environment [env] holds for it. *)
Definition configured_by (env : gmap string string) (r : Request) : Prop :=
  match r with
  | CreateDBClusterSnapshotCommand input =>
      CreateDBClusterSnapshot.DBClusterIdentifier input = env !! "DB_CLUSTER_IDENTIFIER" /\
      CreateDBClusterSnapshot.DBClusterSnapshotIdentifier input = env !! "SNAPSHOT_NAME"
  | waitUntilDBClusterSnapshotAvailable _ input =>
      DescribeDBClusterSnapshots.DBClusterIdentifier input = env !! "DB_CLUSTER_IDENTIFIER" /\
      DescribeDBClusterSnapshots.DBClusterSnapshotIdentifier input = env !! "SNAPSHOT_NAME"
  | ExportDBClusterSnapshotToS3Command input =>
      ExportDBClusterSnapshotToS3.SourceDBClusterSnapshotIdentifier input = env !! "SNAPSHOT_NAME" /\
      ExportDBClusterSnapshotToS3.S3BucketName input = env !! "S3_BUCKET_NAME" /\
      ExportDBClusterSnapshotToS3.IamRoleArn input = env !! "IAM_ROLE_ARN" /\
      ExportDBClusterSnapshotToS3.KmsKeyId input = env !! "KMS_KEY_ID"
  | StartExportTaskCommand input =>
      StartExportTask.SourceArn input = or_else (env !! "SOURCE_ARN") "" /\
      StartExportTask.S3BucketName input = or_else (env !! "S3_BUCKET_NAME") "" /\
      StartExportTask.IamRoleArn input = or_else (env !! "IAM_ROLE_ARN") "" /\
      StartExportTask.KmsKeyId input = or_else (env !! "KMS_KEY_ID") ""
  end.

Definition is_digit (c : ascii) : bool :=
  bool_decide (c ∈ ["0"; "1"; "2"; "3"; "4"; "5"; "6"; "7"; "8"; "9"]%char).

Fixpoint all_digits (s : string) : bool :=
  match s with
  | EmptyString => true
  | String c rest => is_digit c && all_digits rest
  end.

(** [snapshot] followed by exactly [n] digits. *)
Definition snapshot_and_digits (n : nat) (s : string) : Prop :=
  exists ds, s = "snapshot" +:+ ds /\ String.length ds = n /\ all_digits ds = true.

(** The time values whose year is written with four digits: from
    0000-01-01T00:00:00.000Z to 9999-12-31T23:59:59.999Z. *)
Definition four_digit_year (t : Z) : Prop := - 62167219200000 <= t <= 253402300799999.

(** The digits of the date-time string that follow the year. *)
Definition after_year (t : Z) : string :=
  Date.pad2 (Date.MonthFromTime t + 1) +:+ Date.pad2 (Date.DateFromTime t) +:+
  Date.pad2 (Date.HourFromTime t) +:+ Date.pad2 (Date.MinFromTime t) +:+
  Date.pad2 (Date.SecFromTime t) +:+ Date.pad3 (Date.msFromTime t).

(** The failure response of the create-wait-export handler. *)
Definition export_failed (reason : ErrorInstance) : Response :=
  {| statusCode := 500;
     body := JSON_stringify_object
       [("message", JsString CreateExport.failure_message);
        ("error", JsString (err_message reason))] |}.

(** The [TypeError] that [new ExportDBClusterSnapshotToS3Command(...)]
    throws. *)
Definition export_command_missing : ErrorInstance :=
  mkError (not_a_constructor "ExportDBClusterSnapshotToS3Command") [].

(** [e] is what the construction of the export command throws, whatever
    the input. *)
Definition export_construction_throws (e : ErrorInstance) : Prop :=
  forall command,
    construct "ExportDBClusterSnapshotToS3Command" command = Thrown (error_value e).

(** The failure response of the start-export handler that caught [error]. *)
Definition start_export_failed (error : JsValue) : Response :=
  {| statusCode := 500;
     body := JSON_stringify_object
       [("message", JsString "Failed to start export task");
        ("error", error)] |}.

(** The error [e] with the message [m] in place of its own, also in its
    enumerable [message] property when it has one. *)
Definition with_message (m : string) (e : ErrorInstance) : ErrorInstance :=
  mkError m
    (map (fun kv => if String.eqb (fst kv) "message" then (fst kv, JsString m) else kv)
       (err_props e)).

(** The two requests that the create-wait-export handler makes, for the
    environment [env] read at the start of the invocation. *)
Definition create_request (env : gmap string string) : Request :=
  CreateDBClusterSnapshotCommand
    (CreateExport.createSnapshotParams (env !! "DB_CLUSTER_IDENTIFIER") (env !! "SNAPSHOT_NAME")).

Definition wait_request (env : gmap string string) : Request :=
  waitUntilDBClusterSnapshotAvailable CreateExport.waiterParams
    (CreateExport.waiterInput (env !! "DB_CLUSTER_IDENTIFIER") (env !! "SNAPSHOT_NAME")).

(** The three ways an invocation of the create-wait-export handler can go
    in the world [w]: the create is rejected, the wait is rejected, or both
    resolve and the construction of the export command throws. *)
Inductive CreateExport_run {W} (rt : Runtime W) (w : W)
  : Completion Response * Exec W -> Prop :=
| create_rejected reason w1 :
    perform rt (create_request (process_env rt w)) w = (Rejected reason, w1) ->
    CreateExport_run rt w
      (Normal (export_failed reason),
       mkExec w1 [mkEvent (create_request (process_env rt w)) (Rejected reason)])
| wait_rejected out1 w1 reason w2 :
    perform rt (create_request (process_env rt w)) w = (Resolved out1, w1) ->
    perform rt (wait_request (process_env rt w)) w1 = (Rejected reason, w2) ->
    CreateExport_run rt w
      (Normal (export_failed reason),
       mkExec w2 [mkEvent (create_request (process_env rt w)) (Resolved out1);
                  mkEvent (wait_request (process_env rt w)) (Rejected reason)])
| export_not_constructed out1 w1 out2 w2 :
    perform rt (create_request (process_env rt w)) w = (Resolved out1, w1) ->
    perform rt (wait_request (process_env rt w)) w1 = (Resolved out2, w2) ->
    CreateExport_run rt w
      (Normal (export_failed export_command_missing),
       mkExec w2 [mkEvent (create_request (process_env rt w)) (Resolved out1);
                  mkEvent (wait_request (process_env rt w)) (Resolved out2)]).

(** The export task identifiers of the requests of a trace. *)
Definition identifiers (tr : list Event) : list string :=
  omap (fun ev => request_identifier (ev_request ev)) tr.

(** * Concrete worlds *)

Definition world_at (env : gmap string string) (clock : Z) (script : list Outcome) : Scripted :=
  {| sc_env := env; sc_clock := clock; sc_script := script |}.

Definition env_create_export : gmap string string :=
  <["DB_CLUSTER_IDENTIFIER" := "mycluster"]> (<["SNAPSHOT_NAME" := "snap1"]>
  (<["S3_BUCKET_NAME" := "bucket1"]> (<["IAM_ROLE_ARN" := "arn:role"]> ∅))).

Definition env_start_export : gmap string string :=
  <["SOURCE_ARN" := "arn:aws:rds:snapshot:one"]> (<["S3_BUCKET_NAME" := "bucket1"]>
  (<["IAM_ROLE_ARN" := "arn:role"]> ∅)).

Definition env_start_export_other : gmap string string :=
  <["SOURCE_ARN" := "arn:aws:rds:snapshot:two"]> (<["S3_BUCKET_NAME" := "bucket2"]>
  (<["IAM_ROLE_ARN" := "arn:role"]> ∅)).

(** 2025-01-15T00:00:00.000Z *)
Definition clock_2025 : Z := 1736899200000.

(** The error the waiter rejects with when [maxWaitTime] has passed. *)
Definition timeout_error : ErrorInstance :=
  mkError "Waiter has timed out" [("name", JsString "TimeoutError")].

(** An error as the SDK makes it from the service's error response: the
    message is an enumerable property too. *)
Definition access_denied : ErrorInstance :=
  mkError "User is not authorized to perform: rds:StartExportTask"
    [("name", JsString "AccessDenied");
     ("$fault", JsString "client");
     ("$metadata", JsObject [("httpStatusCode", JsNumber 403)]);
     ("message", JsString "User is not authorized to perform: rds:StartExportTask")].

(** * Further observations on a run *)

(** The step of a workflow that a request is. *)
Inductive Step : Type := CreateStep | WaitStep | ExportStep | StartExportStep.

Definition step_of (r : Request) : Step :=
  match r with
  | CreateDBClusterSnapshotCommand _ => CreateStep
  | waitUntilDBClusterSnapshotAvailable _ _ => WaitStep
  | ExportDBClusterSnapshotToS3Command _ => ExportStep
  | StartExportTaskCommand _ => StartExportStep
  end.

Definition steps (tr : list Event) : list Step :=
  map (fun ev => step_of (ev_request ev)) tr.

(** The character [c] occurs in [s]. *)
Fixpoint string_mem (c : ascii) (s : string) : bool :=
  match s with
  | EmptyString => false
  | String c' rest => Ascii.eqb c c' || string_mem c rest
  end.

(** The catch block of the create-wait-export handler, on the value it
    catches. *)
Definition create_export_catch {W} (error : JsValue) : JS W Response :=
  message ← lift (get_message error);
  mret {| statusCode := 500;
          body := JSON_stringify_object
            [("message", JsString CreateExport.failure_message);
             ("error", message)] |}.

(** Reading a JSON string literal back: the characters up to the closing
    quote, unescaped, and the text after the quote. It undoes
    [quote_chars]. *)
Definition hex_value (c : ascii) : option N :=
  let n := N_of_ascii c in
  if (48 <=? n)%N && (n <=? 57)%N then Some (n - 48)%N
  else if (97 <=? n)%N && (n <=? 102)%N then Some (n - 87)%N
  else None.

Definition cons_char (c : ascii) (r : option (string * string)) : option (string * string) :=
  match r with
  | Some (s, rest) => Some (String c s, rest)
  | None => None
  end.

Fixpoint unquote_chars (s : string) : option (string * string) :=
  match s with
  | EmptyString => None
  | String c rest =>
      if Ascii.eqb c "034"%char then Some ("", rest)
      else if Ascii.eqb c "\"%char then
        match rest with
        | String e rest' =>
            if Ascii.eqb e "b"%char then cons_char "008"%char (unquote_chars rest')
            else if Ascii.eqb e "t"%char then cons_char "009"%char (unquote_chars rest')
            else if Ascii.eqb e "n"%char then cons_char "010"%char (unquote_chars rest')
            else if Ascii.eqb e "f"%char then cons_char "012"%char (unquote_chars rest')
            else if Ascii.eqb e "r"%char then cons_char "013"%char (unquote_chars rest')
            else if Ascii.eqb e "034"%char then cons_char "034"%char (unquote_chars rest')
            else if Ascii.eqb e "\"%char then cons_char "\"%char (unquote_chars rest')
            else if Ascii.eqb e "u"%char then
              match rest' with
              | String _ (String _ (String h (String l rest''))) =>
                  match hex_value h, hex_value l with
                  | Some a, Some b =>
                      cons_char (ascii_of_N (16 * a + b)) (unquote_chars rest'')
                  | _, _ => None
                  end
              | _ => None
              end
            else None
        | EmptyString => None
        end
      else cons_char c (unquote_chars rest)
  end.

(** * Facts about the calendar *)

Import Date.
Local Arguments String.append : simpl nomatch.

Ltac zdiv := Z.div_mod_to_equations; lia.

(** A year has [DaysInYear] days. *)
Lemma DayFromYear_succ y : DayFromYear (y + 1) - DayFromYear y = DaysInYear y.
Proof.
  unfold DayFromYear, DaysInYear.
  destruct (Z.eqb_spec (y mod 4) 0), (Z.eqb_spec (y mod 100) 0),
    (Z.eqb_spec (y mod 400) 0); cbn [negb]; zdiv.
Qed.

(** The day of [t] falls in the year [YearFromTime t]. *)
Lemma YearFromTime_spec t :
  DayFromYear (YearFromTime t) <= Day t < DayFromYear (YearFromTime t + 1).
Proof.
  unfold YearFromTime. generalize (Day t). intros d.
  set (y := 1970 + d * 400 / 146097).
  destruct (Z.ltb_spec d (DayFromYear y)).
  - replace (y - 1 + 1) with y by lia. split; [|lia].
    unfold DayFromYear in *. subst y. zdiv.
  - destruct (Z.leb_spec (DayFromYear (y + 1)) d).
    + split; [lia|]. unfold DayFromYear in *. subst y. zdiv.
    + lia.
Qed.

Lemma DayFromYear_lt y1 y2 : y1 < y2 -> DayFromYear y1 < DayFromYear y2.
Proof. unfold DayFromYear. intros. zdiv. Qed.

(** [YearFromTime t] is the largest year that starts at or before [t], as
    ECMAScript defines it. *)
Lemma YearFromTime_largest t y : TimeFromYear y <= t <-> y <= YearFromTime t.
Proof.
  pose proof (YearFromTime_spec t) as [Hlo Hhi].
  assert (TimeFromYear y <= t <-> DayFromYear y <= Day t) as ->.
  { unfold TimeFromYear, Day, msPerDay. generalize (DayFromYear y). intros. zdiv. }
  split; intros H.
  - destruct (Z_lt_le_dec (YearFromTime t) y) as [Hlt|]; [|done].
    assert (DayFromYear (YearFromTime t + 1) <= DayFromYear y); [|lia].
    destruct (Z.eq_dec (YearFromTime t + 1) y) as [->|]; [lia|].
    apply Z.lt_le_incl, DayFromYear_lt. lia.
  - destruct (Z.eq_dec y (YearFromTime t)) as [->|]; [done|].
    assert (DayFromYear y < DayFromYear (YearFromTime t)); [|lia].
    apply DayFromYear_lt. lia.
Qed.

Lemma DaysInYear_cases y : DaysInYear y = 365 \/ DaysInYear y = 366.
Proof. unfold DaysInYear. repeat case_match; auto. Qed.

Lemma DayWithinYear_bounds t : 0 <= DayWithinYear t < 365 + InLeapYear t.
Proof.
  unfold DayWithinYear, InLeapYear.
  pose proof (YearFromTime_spec t). pose proof (DayFromYear_succ (YearFromTime t)).
  destruct (DaysInYear_cases (YearFromTime t)) as [E|E]; rewrite E in *; simpl; lia.
Qed.

Lemma InLeapYear_cases t : InLeapYear t = 0 \/ InLeapYear t = 1.
Proof. unfold InLeapYear. case_match; auto. Qed.

Lemma MonthFromTime_bounds t : 0 <= MonthFromTime t <= 11.
Proof. unfold MonthFromTime. repeat case_match; lia. Qed.

Lemma DateFromTime_bounds t : 1 <= DateFromTime t <= 31.
Proof.
  pose proof (DayWithinYear_bounds t). pose proof (InLeapYear_cases t).
  unfold DateFromTime, MonthFromTime.
  repeat (match goal with |- context [?a <? ?b] => destruct (Z.ltb_spec a b) end; try lia).
Qed.

(** The year, the month and the date determine the day; the day and the
    time fields determine the time value. *)
Lemma day_from_fields t1 t2 :
  YearFromTime t1 = YearFromTime t2 ->
  MonthFromTime t1 = MonthFromTime t2 ->
  DateFromTime t1 = DateFromTime t2 ->
  Day t1 = Day t2.
Proof.
  intros Hy Hm Hd.
  assert (DayWithinYear t1 = DayWithinYear t2) as Hw; [|unfold DayWithinYear in Hw; rewrite Hy in Hw; lia].
  unfold DateFromTime in Hd. rewrite <- Hm in Hd.
  assert (InLeapYear t1 = InLeapYear t2) as Hl by (unfold InLeapYear; by rewrite Hy).
  rewrite <- Hl in Hd.
  repeat case_match; lia.
Qed.

Lemma time_from_fields t1 t2 :
  Day t1 = Day t2 ->
  HourFromTime t1 = HourFromTime t2 ->
  MinFromTime t1 = MinFromTime t2 ->
  SecFromTime t1 = SecFromTime t2 ->
  msFromTime t1 = msFromTime t2 ->
  t1 = t2.
Proof.
  unfold Day, HourFromTime, MinFromTime, SecFromTime, msFromTime,
    msPerDay, msPerHour, msPerMinute, msPerSecond.
  intros. zdiv.
Qed.

(** The years of the valid time values. *)
Lemma year_bounds t : valid_time t -> -271821 <= YearFromTime t <= 275760.
Proof.
  intros Hv. pose proof (YearFromTime_spec t) as [Hlo Hhi].
  assert (-100000000 <= Day t <= 100000000) by (unfold valid_time, Day, msPerDay in *; zdiv).
  split.
  - destruct (Z_lt_le_dec (YearFromTime t) (-271821)); [|done].
    assert (DayFromYear (YearFromTime t + 1) <= DayFromYear (-271821)).
    { destruct (Z.eq_dec (YearFromTime t + 1) (-271821)) as [->|]; [done|].
      apply Z.lt_le_incl, DayFromYear_lt. lia. }
    vm_compute (DayFromYear (-271821)) in *. lia.
  - destruct (Z_lt_le_dec 275760 (YearFromTime t)); [|lia].
    assert (DayFromYear 275761 <= DayFromYear (YearFromTime t)).
    { destruct (Z.eq_dec 275761 (YearFromTime t)) as [<-|]; [done|].
      apply Z.lt_le_incl, DayFromYear_lt. lia. }
    vm_compute (DayFromYear 275761) in *. lia.
Qed.

(** A property of the ten digits holds of every [x mod 10]. *)
Lemma mod_10_ind (P : Z -> Prop) :
  (forall k : nat, (k < 10)%nat -> P (Z.of_nat k)) -> forall x, P (x mod 10).
Proof.
  intros H x. rewrite <- (Z2Nat.id (x mod 10)) by zdiv. apply H. zdiv.
Qed.

Ltac each_digit k tac := do 10 (destruct k as [|k]; [tac|]); lia.

Lemma digit_inj a b : digit (a mod 10) = digit (b mod 10) -> a mod 10 = b mod 10.
Proof.
  apply (mod_10_ind (fun x => digit x = digit (b mod 10) -> x = b mod 10)).
  intros j Hj.
  apply (mod_10_ind (fun y => digit (Z.of_nat j) = digit y -> Z.of_nat j = y)).
  intros k Hk.
  each_digit j ltac:(each_digit k ltac:(
    intros H; first [reflexivity | vm_compute in H; discriminate H])).
Qed.

Lemma digit_is_digit x : is_digit (digit (x mod 10)) = true.
Proof.
  apply (mod_10_ind (fun d => is_digit (digit d) = true)).
  intros k Hk. each_digit k ltac:(reflexivity).
Qed.

Lemma remove_chars_app cls a b :
  remove_chars cls (a +:+ b) = remove_chars cls a +:+ remove_chars cls b.
Proof. induction a as [|c a IH]; simpl; [done|]. rewrite IH. by case_bool_decide. Qed.


Lemma remove_digit x s :
  remove_chars iso_punctuation (String (digit (x mod 10)) s) =
  String (digit (x mod 10)) (remove_chars iso_punctuation s).
Proof.
  apply (mod_10_ind (fun d =>
    remove_chars iso_punctuation (String (digit d) s) =
    String (digit d) (remove_chars iso_punctuation s))).
  intros k Hk. each_digit k ltac:(reflexivity).
Qed.

Lemma remove_pad2 n : remove_chars iso_punctuation (pad2 n) = pad2 n.
Proof. unfold pad2. by rewrite !remove_digit. Qed.
Lemma remove_pad3 n : remove_chars iso_punctuation (pad3 n) = pad3 n.
Proof. unfold pad3. by rewrite remove_digit, remove_pad2. Qed.
Lemma remove_pad4 n : remove_chars iso_punctuation (pad4 n) = pad4 n.
Proof. unfold pad4. by rewrite remove_digit, remove_pad3. Qed.
Lemma remove_pad6 n : remove_chars iso_punctuation (pad6 n) = pad6 n.
Proof. unfold pad6. by rewrite !remove_digit, remove_pad4. Qed.

(** The identifier of the start-export handler: the replace leaves the
    digits and drops the separators, and the sign of a negative year. *)
Lemma exportTaskIdentifier_unfold t :
  StartExport.exportTaskIdentifier t =
  "snapshot" +:+ remove_chars iso_punctuation (year_string (YearFromTime t)) +:+ after_year t.
Proof.
  unfold StartExport.exportTaskIdentifier, toISOString, after_year. fold iso_punctuation.
  rewrite !remove_chars_app, !remove_pad2, remove_pad3. reflexivity.
Qed.

Lemma exportTaskIdentifier_four_digit_year t :
  0 <= YearFromTime t <= 9999 ->
  StartExport.exportTaskIdentifier t = "snapshot" +:+ pad4 (YearFromTime t) +:+ after_year t.
Proof.
  intros H. rewrite exportTaskIdentifier_unfold. unfold year_string.
  destruct (Z.leb_spec 0 (YearFromTime t)); [|lia].
  destruct (Z.leb_spec (YearFromTime t) 9999); [|lia].
  cbn [andb]. by rewrite remove_pad4.
Qed.

Lemma exportTaskIdentifier_large_year t :
  9999 < YearFromTime t ->
  StartExport.exportTaskIdentifier t = "snapshot+" +:+ pad6 (YearFromTime t) +:+ after_year t.
Proof.
  intros H. rewrite exportTaskIdentifier_unfold. unfold year_string.
  destruct (Z.leb_spec 0 (YearFromTime t)); [|lia].
  destruct (Z.leb_spec (YearFromTime t) 9999); [lia|].
  cbn [andb]. rewrite remove_chars_app, remove_pad6. reflexivity.
Qed.

Lemma exportTaskIdentifier_negative_year t :
  YearFromTime t < 0 ->
  StartExport.exportTaskIdentifier t = "snapshot" +:+ pad6 (- YearFromTime t) +:+ after_year t.
Proof.
  intros H. rewrite exportTaskIdentifier_unfold. unfold year_string.
  destruct (Z.leb_spec 0 (YearFromTime t)); [lia|].
  cbn [andb]. rewrite remove_chars_app, remove_pad6. reflexivity.
Qed.

Lemma after_year_inj t1 t2 :
  YearFromTime t1 = YearFromTime t2 -> after_year t1 = after_year t2 -> t1 = t2.
Proof.
  intros Hy H.
  pose proof (MonthFromTime_bounds t1). pose proof (MonthFromTime_bounds t2).
  pose proof (DateFromTime_bounds t1). pose proof (DateFromTime_bounds t2).
  assert (MonthFromTime t1 = MonthFromTime t2 /\ DateFromTime t1 = DateFromTime t2 /\
          HourFromTime t1 = HourFromTime t2 /\ MinFromTime t1 = MinFromTime t2 /\
          SecFromTime t1 = SecFromTime t2 /\ msFromTime t1 = msFromTime t2) as (?&?&?&?&?&?).
  { cbv [pad6 pad4 pad3 pad2 after_year String.append] in H.
    injection H as H. intros.
    repeat match goal with
    | E : digit (_ mod 10) = digit (_ mod 10) |- _ => apply digit_inj in E
    end.
    unfold HourFromTime, MinFromTime, SecFromTime, msFromTime, msPerSecond in *.
    generalize dependent (MonthFromTime t1). generalize dependent (MonthFromTime t2).
    generalize dependent (DateFromTime t1). generalize dependent (DateFromTime t2).
    generalize dependent (t1 / msPerHour). generalize dependent (t2 / msPerHour).
    generalize dependent (t1 / msPerMinute). generalize dependent (t2 / msPerMinute).
    generalize dependent (t1 / 1000). generalize dependent (t2 / 1000).
    intros. repeat split; zdiv. }
  apply time_from_fields; auto using day_from_fields.
Qed.

Lemma pad4_app_inj a b s1 s2 :
  0 <= a <= 9999 -> 0 <= b <= 9999 -> pad4 a +:+ s1 = pad4 b +:+ s2 -> a = b /\ s1 = s2.
Proof.
  intros Ha Hb H. cbv [pad4 pad3 pad2 String.append] in H.
  injection H as H1 H2 H3 H4 ->. split; [|done].
  apply digit_inj in H1, H2, H3, H4. zdiv.
Qed.

Lemma pad6_app_inj a b s1 s2 :
  0 <= a <= 999999 -> 0 <= b <= 999999 -> pad6 a +:+ s1 = pad6 b +:+ s2 -> a = b /\ s1 = s2.
Proof.
  intros Ha Hb H. cbv [pad6 pad4 pad3 pad2 String.append] in H.
  injection H as H1 H2 H3 H4 H5 H6 ->. split; [|done].
  apply digit_inj in H1, H2, H3, H4, H5, H6. zdiv.
Qed.

Lemma string_app_inv_head s a b : s +:+ a = s +:+ b -> a = b.
Proof. induction s as [|c s IH]; simpl; [done|]. intros [= H]. auto. Qed.

Lemma exportTaskIdentifier_length t :
  String.length (StartExport.exportTaskIdentifier t) =
    if (0 <=? YearFromTime t) && (YearFromTime t <=? 9999) then 25%nat
    else if 0 <=? YearFromTime t then 28%nat else 27%nat.
Proof.
  destruct (Z.leb_spec 0 (YearFromTime t)); [destruct (Z.leb_spec (YearFromTime t) 9999)|];
    cbn [andb].
  - by rewrite exportTaskIdentifier_four_digit_year.
  - by rewrite exportTaskIdentifier_large_year.
  - by rewrite exportTaskIdentifier_negative_year.
Qed.

(** Different valid time values give different identifiers. *)
Lemma exportTaskIdentifier_inj t1 t2 :
  valid_time t1 -> valid_time t2 ->
  StartExport.exportTaskIdentifier t1 = StartExport.exportTaskIdentifier t2 -> t1 = t2.
Proof.
  intros Hv1 Hv2 H.
  pose proof (year_bounds t1 Hv1). pose proof (year_bounds t2 Hv2).
  pose proof (f_equal String.length H) as Hlen.
  rewrite !exportTaskIdentifier_length in Hlen.
  destruct (Z.leb_spec 0 (YearFromTime t1)); [destruct (Z.leb_spec (YearFromTime t1) 9999)|];
  (destruct (Z.leb_spec 0 (YearFromTime t2)); [destruct (Z.leb_spec (YearFromTime t2) 9999)|]);
  cbn [andb] in Hlen; try discriminate Hlen.
  - rewrite !exportTaskIdentifier_four_digit_year in H by lia.
    apply string_app_inv_head, pad4_app_inj in H as [Hy H]; [|lia..].
    by apply after_year_inj.
  - rewrite !exportTaskIdentifier_large_year in H by lia.
    apply string_app_inv_head, pad6_app_inj in H as [Hy H]; [|lia..].
    by apply after_year_inj.
  - rewrite !exportTaskIdentifier_negative_year in H by lia.
    apply string_app_inv_head, pad6_app_inj in H as [Hy H]; [|lia..].
    apply after_year_inj; [lia|done].
Qed.

Lemma four_digit_year_spec t : four_digit_year t -> 0 <= YearFromTime t <= 9999.
Proof.
  intros [Hlo Hhi]. split.
  - apply YearFromTime_largest. by vm_compute.
  - destruct (Z_lt_le_dec 9999 (YearFromTime t)) as [Hlt|]; [|done].
    assert (TimeFromYear 10000 <= t) as Hc by (apply YearFromTime_largest; lia).
    vm_compute (TimeFromYear 10000) in Hc. lia.
Qed.

Lemma all_digits_app a b : all_digits (a +:+ b) = all_digits a && all_digits b.
Proof. induction a as [|c a IH]; simpl; [done|]. by rewrite IH, andb_assoc. Qed.

Lemma all_digits_pad2 n : all_digits (pad2 n) = true.
Proof. unfold pad2. cbn [all_digits]. by rewrite !digit_is_digit. Qed.
Lemma all_digits_pad3 n : all_digits (pad3 n) = true.
Proof. unfold pad3. cbn [all_digits]. by rewrite digit_is_digit, all_digits_pad2. Qed.
Lemma all_digits_pad4 n : all_digits (pad4 n) = true.
Proof. unfold pad4. cbn [all_digits]. by rewrite digit_is_digit, all_digits_pad3. Qed.

Lemma exportTaskIdentifier_17_digits t :
  four_digit_year t -> snapshot_and_digits 17 (StartExport.exportTaskIdentifier t).
Proof.
  intros H%four_digit_year_spec.
  exists (pad4 (YearFromTime t) +:+ after_year t). split_and!.
  - by apply exportTaskIdentifier_four_digit_year.
  - reflexivity.
  - unfold after_year. rewrite !all_digits_app.
    by rewrite all_digits_pad4, !all_digits_pad2, all_digits_pad3.
Qed.

(** * Facts about the runs of the handlers *)

Section Runs.
Context {W : Type} (rt : Runtime W).

(** Handler A makes its one request and returns. *)
Lemma handler_A_run c event w :
  let t := now rt w in
  let r := StartExportTaskCommand (StartExport.params c t) in
  invoke (StartExport.handler rt c event) w =
  (Normal
     match (perform rt r w).1 with
     | Resolved _ =>
         {| statusCode := 200;
            body := JSON_stringify_object
              [("message", JsString "Export task started successfully");
               ("exportTaskIdentifier", JsString (StartExport.exportTaskIdentifier t))] |}
     | Rejected reason =>
         {| statusCode := 500;
            body := JSON_stringify_object
              [("message", JsString "Failed to start export task");
               ("error", error_value reason)] |}
     end,
   mkExec (perform rt r w).2 [mkEvent r (perform rt r w).1]).
Proof.
  intros t r. unfold invoke, StartExport.handler, mbind, JS_bind, try_catch, Date_now, await, mret, JS_ret.
  cbn [world trace]. fold t. fold r.
  destruct (perform rt r w) as [[output|reason] w1]; reflexivity.
Qed.

(** Every invocation of the create-wait-export handler is one of the three
    runs. *)
Lemma handler_B_run event w :
  CreateExport_run rt w (invoke (CreateExport.handler rt event) w).
Proof.
  unfold invoke, CreateExport.handler, mbind, JS_bind, try_catch, getenv, Date_now,
    await, mret, JS_ret, lift.
  cbn [world trace].
  destruct (perform rt (CreateDBClusterSnapshotCommand _) w) as [[out1|reason] w1] eqn:E1;
    cbn [world trace app get_message error_value];
    [|by eapply create_rejected].
  destruct (perform rt (waitUntilDBClusterSnapshotAvailable _ _) w1) as [[out2|reason] w2] eqn:E2;
    cbn [world trace app get_message error_value];
    [|by eapply wait_rejected].
  by eapply export_not_constructed.
Qed.

End Runs.

Lemma returns_export_failed reason : returns_status (Normal (export_failed reason)) 500.
Proof. by eexists. Qed.

(** Every invocation of the create-wait-export handler returns a response. *)
Lemma handler_B_returns {W} (rt : Runtime W) event w :
  exists r, (invoke (CreateExport.handler rt event) w).1 = Normal r.
Proof. destruct (handler_B_run rt event w); by eexists. Qed.

(** A rejection ends the invocation with the failure response for it. *)
Lemma handler_B_rejected {W} (rt : Runtime W) event w r reason :
  mkEvent r (Rejected reason) ∈ trace (invoke (CreateExport.handler rt event) w).2 ->
  (invoke (CreateExport.handler rt event) w).1 = Normal (export_failed reason).
Proof.
  intros Hin.
  destruct (handler_B_run rt event w); cbn [fst snd trace] in *.
  all: repeat (apply elem_of_cons in Hin as [Hin|Hin]; [simplify_eq|]);
    try (by apply elem_of_nil in Hin).
  all: done.
Qed.

(** C1. In the create-wait-export handler the wait is requested only after
    the create-cluster-snapshot request was acknowledged, the export is
    requested only after the wait resolved (the snapshot is available), and
    a request that fails is the last one made: the remaining steps are
    dropped and the invocation returns status 500. *)
Theorem handler_B_steps_in_order {W} (rt : Runtime W) event w :
  let run := invoke (CreateExport.handler rt event) w in
  after_acknowledged is_create is_wait (trace run.2) /\
  after_acknowledged is_wait is_export (trace run.2) /\
  (forall i ev, trace run.2 !! i = Some ev -> resolved (ev_outcome ev) = false ->
     List.length (trace run.2) = S i /\ returns_status run.1 500).
Proof.
  intros run. subst run.
  destruct (handler_B_run rt event w); subst; cbn [fst snd trace].
  all: split_and!.
  all: try (intros i ev Hi Hk; destruct i as [|[|[|i]]]; simplify_eq/=; try done).
  all: try (split; [done|apply returns_export_failed]).
  all: exists 0%nat; eexists; split_and!; [lia|done..].
Qed.

(** C2. Every wait of the create-wait-export handler is requested with a
    ceiling of 600 seconds; when the waiter rejects, which is how it reports
    that the ceiling was exceeded, the handler returns status 500 and the
    trace holds no export request. *)
Theorem handler_B_wait_ceiling {W} (rt : Runtime W) event w params input o :
  let run := invoke (CreateExport.handler rt event) w in
  mkEvent (waitUntilDBClusterSnapshotAvailable params input) o ∈ trace run.2 ->
  maxWaitTime params = 600 /\
  (forall reason, o = Rejected reason ->
     returns_status run.1 500 /\
     Forall (fun ev => is_export (ev_request ev) = false) (trace run.2)).
Proof.
  intros run Hin. subst run.
  destruct (handler_B_run rt event w); subst; cbn [fst snd trace] in *.
  all: repeat (apply elem_of_cons in Hin as [Hin|Hin]; [simplify_eq|]);
    try (by apply elem_of_nil in Hin).
  all: split; [done|]; intros reason' ?; simplify_eq.
  split; [apply returns_export_failed|]. by repeat constructor.
Qed.

(** C4. Every invocation of the start-export handler makes exactly one
    request, a start-export-task with the generated identifier, which is
    not empty. When the request succeeds the handler returns status 200
    with that identifier in the body; when it fails the handler returns
    status 500; in both cases it returns and does not throw. *)
Theorem handler_A_one_request {W} (rt : Runtime W) c event w :
  let run := invoke (StartExport.handler rt c event) w in
  let id := StartExport.exportTaskIdentifier (now rt w) in
  exists input o,
    trace run.2 = [mkEvent (StartExportTaskCommand input) o] /\
    StartExportTask.ExportTaskIdentifier input = id /\
    id <> "" /\
    (resolved o = true ->
     run.1 = Normal
       {| statusCode := 200;
          body := JSON_stringify_object
            [("message", JsString "Export task started successfully");
             ("exportTaskIdentifier", JsString id)] |}) /\
    (resolved o = false -> returns_status run.1 500) /\
    (exists r, run.1 = Normal r).
Proof.
  intros run id. subst run. rewrite handler_A_run. cbn [fst snd trace].
  eexists _, _. split; [done|]. split; [done|]. split; [done|].
  destruct (perform rt _ w).1; cbn [resolved]; split_and!; try done; eauto.
  intros _. by eexists.
Qed.

Lemma JSON_stringify_JsObject props :
  JSON_stringify (JsObject props) = Some (JSON_stringify_object props).
Proof. reflexivity. Qed.

Lemma JSON_stringify_error reason :
  JSON_stringify (error_value reason) = Some (JSON_stringify_object (err_props reason)).
Proof. rewrite <- JSON_stringify_JsObject. reflexivity. Qed.

(** C5, amended. With no [KMS_KEY_ID] in the environment, every request of
    the create-wait-export handler goes out without [KmsKeyId]; the request
    of the start-export handler, whose module was loaded in that
    environment, sends [KmsKeyId] as the empty string. *)
Theorem KmsKeyId_not_provided {W} (rt : Runtime W) eventB w eventA w' :
  let runB := invoke (CreateExport.handler rt eventB) w in
  let runA := invoke (StartExport.handler rt (StartExport.load (process_env rt w)) eventA) w' in
  process_env rt w !! "KMS_KEY_ID" = None ->
  Forall (fun ev => sent_KmsKeyId (ev_request ev) = None) (trace runB.2) /\
  trace runA.2 <> [] /\
  Forall (fun ev => sent_KmsKeyId (ev_request ev) = Some "") (trace runA.2).
Proof.
  intros runB runA Hk. split_and!.
  - subst runB. destruct (handler_B_run rt eventB w); subst; cbn [fst snd trace].
    all: repeat constructor. all: done.
  - subst runA. by rewrite handler_A_run.
  - subst runA. rewrite handler_A_run. cbn [fst snd trace].
    repeat constructor. cbn. by rewrite Hk.
Qed.

(** C6, amended. Every request of an invocation of the create-wait-export
    handler carries what the environment held when the invocation started,
    whatever the runtime does to the environment during the invocation.
    Every request of the start-export handler carries what the environment
    held when its module was loaded, whatever world it is invoked in. *)
Theorem configuration_read_once {W} (rt : Runtime W) eventB w env eventA w' :
  let runB := invoke (CreateExport.handler rt eventB) w in
  let runA := invoke (StartExport.handler rt (StartExport.load env) eventA) w' in
  Forall (fun ev => configured_by (process_env rt w) (ev_request ev)) (trace runB.2) /\
  Forall (fun ev => configured_by env (ev_request ev)) (trace runA.2).
Proof.
  intros runB runA. split.
  - subst runB. destruct (handler_B_run rt eventB w); subst; cbn [fst snd trace].
    all: repeat constructor.
  - subst runA. rewrite handler_A_run. cbn [fst snd trace]. repeat constructor.
Qed.

(** C7. When the create and the wait have succeeded the export step fails:
    constructing the export command throws, the SDK package having no such
    class. The handler returns status 500 and has sent nothing after the
    wait: no export request, and no request to delete or roll back the
    snapshot. *)
Theorem handler_B_export_failure {W} (rt : Runtime W) event w r out :
  is_wait r = true ->
  mkEvent r (Resolved out) ∈ trace (invoke (CreateExport.handler rt event) w).2 ->
  (exists e, export_construction_throws e /\
     (invoke (CreateExport.handler rt event) w).1 = Normal (export_failed e)) /\
  returns_status (invoke (CreateExport.handler rt event) w).1 500 /\
  exists r1 out1,
    is_create r1 = true /\
    trace (invoke (CreateExport.handler rt event) w).2 =
      [mkEvent r1 (Resolved out1); mkEvent r (Resolved out)].
Proof.
  intros Hr Hin.
  destruct (handler_B_run rt event w); cbn [fst snd trace] in *.
  all: repeat (apply elem_of_cons in Hin as [Hin|Hin]; [simplify_eq|]);
    try (by apply elem_of_nil in Hin); try discriminate Hr.
  split_and!; [by exists export_command_missing|apply returns_export_failed|].
  eexists _, _. split; [|reflexivity]. reflexivity.
Qed.

(** C8, the code at the failing input. When every request of an invocation
    of the create-wait-export handler succeeds, the requests are the create
    and the wait, and the handler returns status 500: it gets to no export
    request and to no 200 response. *)
Theorem handler_B_all_resolved_returns_500 {W} (rt : Runtime W) event w :
  all_resolved (trace (invoke (CreateExport.handler rt event) w).2) = true ->
  returns_status (invoke (CreateExport.handler rt event) w).1 500 /\
  steps (trace (invoke (CreateExport.handler rt event) w).2) = [CreateStep; WaitStep].
Proof.
  intros Hall.
  destruct (handler_B_run rt event w); cbn [fst snd trace] in *; try discriminate Hall.
  split; [apply returns_export_failed|done].
Qed.


Lemma with_message_no_property m e :
  own_property "message" (err_props e) = None ->
  err_props (with_message m e) = err_props e.
Proof.
  unfold with_message. cbn [err_props].
  induction (err_props e) as [|[k v] props IH]; [done|].
  cbn [own_property map fst]. rewrite (String.eqb_sym "message" k).
  destruct (String.eqb k "message"); [discriminate|].
  intros H. by rewrite IH.
Qed.

Lemma message_member props m :
  own_property "message" props = Some (JsString m) ->
  (QuoteJSONString "message" +:+ ":" +:+ QuoteJSONString m) ∈ JSON_members props.
Proof.
  induction props as [|[k v] props IH]; [done|].
  cbn [own_property JSON_members].
  destruct (String.eqb_spec "message" k) as [<-|Hne].
  - intros [= ->]. apply list_elem_of_here.
  - intros H. destruct (JSON_stringify v); [apply list_elem_of_further|]; by apply IH.
Qed.

(** C10, amended. For one and the same rejection, the start-export handler
    puts the caught value itself under [error], and [JSON.stringify] writes
    it as the object of the enumerable properties of the error: the body
    does not tell the message of an error whose message is not enumerable,
    and has the message of an error that carries it as an enumerable
    property. The create-wait-export handler puts the message string under
    [error]. The two bodies differ. *)
Theorem failure_bodies_differ {W} (rt : Runtime W) c eventA wA eventB wB rA rB reason :
  mkEvent rA (Rejected reason) ∈ trace (invoke (StartExport.handler rt c eventA) wA).2 ->
  mkEvent rB (Rejected reason) ∈ trace (invoke (CreateExport.handler rt eventB) wB).2 ->
  (invoke (StartExport.handler rt c eventA) wA).1 =
    Normal (start_export_failed (error_value reason)) /\
  body (start_export_failed (error_value reason)) =
    "{" +:+ join_comma
      [QuoteJSONString "message" +:+ ":" +:+ QuoteJSONString "Failed to start export task";
       QuoteJSONString "error" +:+ ":" +:+
         ("{" +:+ join_comma (JSON_members (err_props reason)) +:+ "}")] +:+ "}" /\
  (own_property "message" (err_props reason) = None ->
   forall m, start_export_failed (error_value (with_message m reason)) =
             start_export_failed (error_value reason)) /\
  (forall m, own_property "message" (err_props reason) = Some (JsString m) ->
   (QuoteJSONString "message" +:+ ":" +:+ QuoteJSONString m)
     ∈ JSON_members (err_props reason)) /\
  (invoke (CreateExport.handler rt eventB) wB).1 =
    Normal
      {| statusCode := 500;
         body := JSON_stringify_object
           [("message", JsString CreateExport.failure_message);
            ("error", JsString (err_message reason))] |} /\
  body (start_export_failed (error_value reason)) <> body (export_failed reason).
Proof.
  intros HA HB. split_and!.
  - rewrite handler_A_run in *. cbn [fst snd trace] in *.
    apply list_elem_of_singleton in HA. injection HA as _ HA. by rewrite <- HA.
  - reflexivity.
  - intros Hnone m. unfold start_export_failed, JSON_stringify_object.
    cbn [JSON_members]. rewrite !JSON_stringify_error.
    by rewrite with_message_no_property.
  - intros m. apply message_member.
  - by rewrite (handler_B_rejected rt eventB wB rB reason HB).
  - intros H. vm_compute in H. discriminate H.
Qed.

Lemma identifiers_handler_A {W} (rt : Runtime W) c event w :
  identifiers (trace (invoke (StartExport.handler rt c event) w).2) =
  [StartExport.exportTaskIdentifier (now rt w)].
Proof. by rewrite handler_A_run. Qed.

(** C3, amended. Two invocations of the start-export handler whose clocks
    read different time values generate different identifiers; for a clock
    in the years 0000 to 9999 the identifier is [snapshot] followed by
    exactly 17 digits: the UTC date and time to the millisecond. *)
Theorem exportTaskIdentifier_distinct {W} (rt : Runtime W) c1 c2 event1 event2 w1 w2 id1 id2 :
  let run1 := invoke (StartExport.handler rt c1 event1) w1 in
  let run2 := invoke (StartExport.handler rt c2 event2) w2 in
  valid_time (now rt w1) -> valid_time (now rt w2) ->
  now rt w1 <> now rt w2 ->
  id1 ∈ identifiers (trace run1.2) ->
  id2 ∈ identifiers (trace run2.2) ->
  id1 <> id2 /\
  (four_digit_year (now rt w1) -> snapshot_and_digits 17 id1) /\
  (four_digit_year (now rt w2) -> snapshot_and_digits 17 id2).
Proof.
  intros run1 run2 Hv1 Hv2 Hne H1 H2. subst run1 run2.
  rewrite identifiers_handler_A in H1, H2.
  apply list_elem_of_singleton in H1 as ->. apply list_elem_of_singleton in H2 as ->.
  split_and!.
  - intros Heq. by apply Hne, exportTaskIdentifier_inj.
  - apply exportTaskIdentifier_17_digits.
  - apply exportTaskIdentifier_17_digits.
Qed.

(** * The claims at concrete worlds *)

(** C3 as stated fails: on 2025-01-15T00:00:00.000Z the identifier is
    [snapshot20250115000000000], seventeen digits and not fourteen. *)
Lemma exportTaskIdentifier_not_14_digits :
  identifiers
    (trace (invoke (StartExport.handler scripted (StartExport.load env_start_export) JsNull)
              (world_at env_start_export clock_2025 [])).2) =
    ["snapshot20250115000000000"] /\
  ~ snapshot_and_digits 14 "snapshot20250115000000000".
Proof.
  split; [by vm_compute|].
  intros (ds & Heq & Hlen & _).
  apply (string_app_inv_head "snapshot") in Heq. subst ds. discriminate Hlen.
Qed.

Lemma exportTaskIdentifier_distinct_witness :
  let w1 := world_at env_start_export clock_2025 [] in
  let w2 := world_at env_start_export (clock_2025 + 1000) [] in
  let c := StartExport.load env_start_export in
  "snapshot20250115000000000" <> "snapshot20250115000001000" /\
  (four_digit_year (now scripted w1) -> snapshot_and_digits 17 "snapshot20250115000000000") /\
  (four_digit_year (now scripted w2) -> snapshot_and_digits 17 "snapshot20250115000001000").
Proof.
  apply (exportTaskIdentifier_distinct scripted
           (StartExport.load env_start_export) (StartExport.load env_start_export)
           JsNull JsNull
           (world_at env_start_export clock_2025 [])
           (world_at env_start_export (clock_2025 + 1000) [])).
  - vm_compute. split; discriminate.
  - vm_compute. split; discriminate.
  - vm_compute. discriminate.
  - vm_compute. apply list_elem_of_here.
  - vm_compute. apply list_elem_of_here.
Defined.

Lemma handler_B_wait_ceiling_witness :
  let w := world_at env_create_export clock_2025 [Resolved []; Rejected timeout_error] in
  let run := invoke (CreateExport.handler scripted JsNull) w in
  maxWaitTime CreateExport.waiterParams = 600 /\
  (forall reason, Rejected timeout_error = Rejected reason ->
     returns_status run.1 500 /\
     Forall (fun ev => is_export (ev_request ev) = false) (trace run.2)).
Proof.
  apply (handler_B_wait_ceiling scripted JsNull
           (world_at env_create_export clock_2025 [Resolved []; Rejected timeout_error])
           CreateExport.waiterParams
           (CreateExport.waiterInput (Some "mycluster") (Some "snap1"))
           (Rejected timeout_error)).
  vm_compute. apply list_elem_of_further, list_elem_of_here.
Defined.

Lemma handler_B_export_failure_witness :
  let w := world_at env_create_export clock_2025 [Resolved []; Resolved []] in
  let run := invoke (CreateExport.handler scripted JsNull) w in
  (exists e, export_construction_throws e /\ run.1 = Normal (export_failed e)) /\
  returns_status run.1 500 /\
  exists r1 out1,
    is_create r1 = true /\
    trace run.2 = [mkEvent r1 (Resolved out1);
                   mkEvent (wait_request env_create_export) (Resolved [])].
Proof.
  apply (handler_B_export_failure scripted JsNull
           (world_at env_create_export clock_2025 [Resolved []; Resolved []])
           (wait_request env_create_export) []).
  - reflexivity.
  - vm_compute. apply list_elem_of_further, list_elem_of_here.
Defined.

Lemma handler_B_all_resolved_returns_500_witness :
  let w := world_at env_create_export clock_2025 [Resolved []; Resolved []; Resolved []] in
  let run := invoke (CreateExport.handler scripted JsNull) w in
  returns_status run.1 500 /\ steps (trace run.2) = [CreateStep; WaitStep].
Proof.
  apply (handler_B_all_resolved_returns_500 scripted JsNull
           (world_at env_create_export clock_2025 [Resolved []; Resolved []; Resolved []])).
  by vm_compute.
Defined.

(** C10 as stated fails: the start-export handler catches an [Error] that
    carries its message as an enumerable property, as the errors the SDK
    makes from a service response do, and the message is in the body. *)
Lemma handler_A_body_keeps_enumerable_message :
  let w := world_at env_start_export clock_2025 [Rejected access_denied] in
  let run := invoke (StartExport.handler scripted (StartExport.load env_start_export) JsNull) w in
  run.1 =
    Normal
      {| statusCode := 500;
         body := "{" +:+ quoted "message" +:+ ":" +:+
                 quoted "Failed to start export task" +:+ "," +:+
                 quoted "error" +:+ ":{" +:+
                 quoted "name" +:+ ":" +:+ quoted "AccessDenied" +:+ "," +:+
                 quoted "$fault" +:+ ":" +:+ quoted "client" +:+ "," +:+
                 quoted "$metadata" +:+ ":{" +:+ quoted "httpStatusCode" +:+ ":403}," +:+
                 quoted "message" +:+ ":" +:+
                 quoted "User is not authorized to perform: rds:StartExportTask" +:+ "}}" |} /\
  start_export_failed (error_value (with_message "Access denied" access_denied)) <>
    start_export_failed (error_value access_denied).
Proof.
  split; [by vm_compute|].
  intros H. vm_compute in H. discriminate H.
Qed.

Lemma failure_bodies_differ_witness :
  let wA := world_at env_start_export clock_2025 [Rejected timeout_error] in
  let wB := world_at env_create_export clock_2025 [Rejected timeout_error] in
  let runA := invoke (StartExport.handler scripted (StartExport.load env_start_export) JsNull) wA in
  let runB := invoke (CreateExport.handler scripted JsNull) wB in
  runA.1 = Normal (start_export_failed (error_value timeout_error)) /\
  body (start_export_failed (error_value timeout_error)) =
    "{" +:+ join_comma
      [QuoteJSONString "message" +:+ ":" +:+ QuoteJSONString "Failed to start export task";
       QuoteJSONString "error" +:+ ":" +:+
         ("{" +:+ join_comma (JSON_members (err_props timeout_error)) +:+ "}")] +:+ "}" /\
  (own_property "message" (err_props timeout_error) = None ->
   forall m, start_export_failed (error_value (with_message m timeout_error)) =
             start_export_failed (error_value timeout_error)) /\
  (forall m, own_property "message" (err_props timeout_error) = Some (JsString m) ->
   (QuoteJSONString "message" +:+ ":" +:+ QuoteJSONString m)
     ∈ JSON_members (err_props timeout_error)) /\
  runB.1 =
    Normal
      {| statusCode := 500;
         body := JSON_stringify_object
           [("message", JsString CreateExport.failure_message);
            ("error", JsString (err_message timeout_error))] |} /\
  body (start_export_failed (error_value timeout_error)) <> body (export_failed timeout_error).
Proof.
  apply (failure_bodies_differ scripted (StartExport.load env_start_export)
           JsNull (world_at env_start_export clock_2025 [Rejected timeout_error])
           JsNull (world_at env_create_export clock_2025 [Rejected timeout_error])
           (StartExportTaskCommand
              (StartExport.params (StartExport.load env_start_export) clock_2025))
           (create_request env_create_export)).
  - vm_compute. apply list_elem_of_here.
  - vm_compute. apply list_elem_of_here.
Defined.

(** C5 as stated fails for the start-export handler: with no [KMS_KEY_ID]
    in the environment its request still sends [KmsKeyId], as the empty
    string. *)
Lemma handler_A_sends_empty_KmsKeyId :
  let w := world_at env_start_export clock_2025 [] in
  let run := invoke (StartExport.handler scripted (StartExport.load (process_env scripted w)) JsNull) w in
  process_env scripted w !! "KMS_KEY_ID" = None /\
  ~ Forall (fun ev => sent_KmsKeyId (ev_request ev) = None) (trace run.2).
Proof.
  split; [by vm_compute|].
  vm_compute. intros H. apply Forall_cons in H as [H _]. discriminate H.
Qed.

Lemma KmsKeyId_not_provided_witness :
  let w := world_at env_create_export clock_2025 [] in
  let runB := invoke (CreateExport.handler scripted JsNull) w in
  let runA := invoke (StartExport.handler scripted (StartExport.load (process_env scripted w)) JsNull) w in
  Forall (fun ev => sent_KmsKeyId (ev_request ev) = None) (trace runB.2) /\
  trace runA.2 <> [] /\
  Forall (fun ev => sent_KmsKeyId (ev_request ev) = Some "") (trace runA.2).
Proof.
  apply (KmsKeyId_not_provided scripted JsNull (world_at env_create_export clock_2025 [])
           JsNull (world_at env_create_export clock_2025 [])).
  by vm_compute.
Defined.

(** C6 as stated fails for the start-export handler: loaded in one
    environment and invoked in a world whose environment holds other
    values, its request carries the values of the load, not those of the
    invocation. *)
Lemma handler_A_ignores_invocation_environment :
  let w := world_at env_start_export_other clock_2025 [] in
  let run := invoke (StartExport.handler scripted (StartExport.load env_start_export) JsNull) w in
  map ev_request (trace run.2) =
    [StartExportTaskCommand
       {| StartExportTask.ExportTaskIdentifier := "snapshot20250115000000000";
          StartExportTask.SourceArn := "arn:aws:rds:snapshot:one";
          StartExportTask.S3BucketName := "bucket1";
          StartExportTask.IamRoleArn := "arn:role";
          StartExportTask.KmsKeyId := "" |}] /\
  process_env scripted w !! "SOURCE_ARN" = Some "arn:aws:rds:snapshot:two" /\
  ~ Forall (fun ev => configured_by (process_env scripted w) (ev_request ev)) (trace run.2).
Proof.
  split_and!; [by vm_compute..|].
  intros H. apply Forall_cons in H as [[H _] _]. vm_compute in H. discriminate H.
Qed.

(** * Checks of the model on known values *)

Example toISOString_2025 : toISOString clock_2025 = "2025-01-15T00:00:00.000Z".
Proof. reflexivity. Qed.

Example toISOString_leap_day : toISOString 1709210096789 = "2024-02-29T12:34:56.789Z".
Proof. reflexivity. Qed.

Example toISOString_before_epoch : toISOString (-1) = "1969-12-31T23:59:59.999Z".
Proof. reflexivity. Qed.

Example toISOString_latest : toISOString 8640000000000000 = "+275760-09-13T00:00:00.000Z".
Proof. reflexivity. Qed.

Example toISOString_earliest : toISOString (-8640000000000000) = "-271821-04-20T00:00:00.000Z".
Proof. reflexivity. Qed.

Example exportTaskIdentifier_2025 :
  StartExport.exportTaskIdentifier clock_2025 = "snapshot20250115000000000".
Proof. reflexivity. Qed.

Example exportTaskIdentifier_year_10000 :
  StartExport.exportTaskIdentifier 253402300800000 = "snapshot+0100000101000000000".
Proof. reflexivity. Qed.

Example QuoteJSONString_escapes :
  QuoteJSONString ("a" +:+ dquote +:+ "b\c" +:+ String "010"%char "") =
  dquote +:+ "a\" +:+ dquote +:+ "b\\c\n" +:+ dquote.
Proof. reflexivity. Qed.

(** The scenario of the specification: the create and the wait succeed,
    and the construction of the export command throws. *)
Example create_export_scenario :
  invoke (CreateExport.handler scripted JsNull)
    (world_at env_create_export clock_2025 [Resolved []; Resolved []; Resolved []]) =
  (Normal
     {| statusCode := 500;
        body := "{" +:+ quoted "message" +:+ ":" +:+
                quoted "Failed to create or export DB cluster snapshot." +:+ "," +:+
                quoted "error" +:+ ":" +:+
                quoted (not_a_constructor "ExportDBClusterSnapshotToS3Command") +:+ "}" |},
   mkExec (world_at env_create_export (clock_2025 + 2000) [Resolved []])
     [mkEvent (create_request env_create_export) (Resolved []);
      mkEvent (wait_request env_create_export) (Resolved [])]).
Proof. by vm_compute. Qed.

(** The message of a plain [Error] is not in the body of the start-export
    handler. *)
Example start_export_failure :
  (invoke (StartExport.handler scripted (StartExport.load env_start_export) JsNull)
     (world_at env_start_export clock_2025 [Rejected timeout_error])).1 =
  Normal
    {| statusCode := 500;
       body := "{" +:+ quoted "message" +:+ ":" +:+
               quoted "Failed to start export task" +:+ "," +:+
               quoted "error" +:+ ":{" +:+
               quoted "name" +:+ ":" +:+ quoted "TimeoutError" +:+ "}}" |}.
Proof. reflexivity. Qed.

(** The environment is emptied while the first request is in flight; the
    wait still carries what was read at the start. *)
Example create_export_keeps_configuration :
  map ev_request
    (trace (invoke (CreateExport.handler forgetful JsNull) (env_create_export, clock_2025)).2) =
  [create_request env_create_export; wait_request env_create_export].
Proof. by vm_compute. Qed.

Example create_export_timeout :
  (invoke (CreateExport.handler scripted JsNull)
     (world_at env_create_export clock_2025 [Resolved []; Rejected timeout_error])).1 =
  Normal
    {| statusCode := 500;
       body := "{" +:+ quoted "message" +:+ ":" +:+
               quoted "Failed to create or export DB cluster snapshot." +:+ "," +:+
               quoted "error" +:+ ":" +:+ quoted "Waiter has timed out" +:+ "}" |}.
Proof. reflexivity. Qed.

Example start_export_success :
  (invoke (StartExport.handler scripted (StartExport.load env_start_export) JsNull)
     (world_at env_start_export clock_2025 [Resolved []])).1 =
  Normal
    {| statusCode := 200;
       body := "{" +:+ quoted "message" +:+ ":" +:+
               quoted "Export task started successfully" +:+ "," +:+
               quoted "exportTaskIdentifier" +:+ ":" +:+
               quoted "snapshot20250115000000000" +:+ "}" |}.
Proof. reflexivity. Qed.

(** * Further properties of the handlers *)

Lemma unquote_quote_char c s :
  unquote_chars (quote_char c +:+ s) = cons_char c (unquote_chars s).
Proof.
  destruct c as [[] [] [] [] [] [] [] []]; reflexivity.
Qed.

Lemma string_app_assoc a b c : (a +:+ b) +:+ c = a +:+ (b +:+ c).
Proof. induction a as [|x a IH]; simpl; [done|]. by rewrite IH. Qed.

Lemma unquote_quote_chars m rest :
  unquote_chars (quote_chars m +:+ dquote +:+ rest) = Some (m, rest).
Proof.
  induction m as [|c m IH]; [done|].
  cbn [quote_chars]. rewrite string_app_assoc, unquote_quote_char, IH. done.
Qed.

Lemma handler_B_identifier_time_aux {W} (rt : Runtime W) event w input o :
  mkEvent (ExportDBClusterSnapshotToS3Command input) o
    ∈ trace (invoke (CreateExport.handler rt event) w).2 ->
  exists t, ExportDBClusterSnapshotToS3.ExportTaskIdentifier input =
              CreateExport.exportTaskIdentifier (process_env rt w !! "SNAPSHOT_NAME") t.
Proof.
  intros Hin.
  destruct (handler_B_run rt event w); cbn [snd trace] in Hin.
  all: repeat (apply elem_of_cons in Hin as [Hin|Hin]; [simplify_eq|]);
    try (by apply elem_of_nil in Hin).
  all: by eexists.
Qed.


(** X1. The create-wait-export handler returns status 500 on every
    invocation: with the message of the rejection of its last request when
    a request was rejected, and with the message of the [TypeError] of the
    construction of the export command when the create and the wait both
    resolved. *)
Theorem handler_B_status {W} (rt : Runtime W) event w :
  let run := invoke (CreateExport.handler rt event) w in
  returns_status run.1 500 /\
  (all_resolved (trace run.2) = true ->
   exists e, export_construction_throws e /\ run.1 = Normal (export_failed e)) /\
  (all_resolved (trace run.2) = false ->
   exists r reason,
     last (trace run.2) = Some (mkEvent r (Rejected reason)) /\
     run.1 = Normal (export_failed reason)).
Proof.
  intros run. subst run.
  destruct (handler_B_run rt event w); cbn [fst snd trace].
  all: split_and!; [apply returns_export_failed|..]; try done.
  1-2: intros _; by eexists _, _.
  intros _. by exists export_command_missing.
Qed.

(** X2. The steps of an invocation of the create-wait-export handler are a
    non-empty prefix of create, wait, export: the create is always
    requested, whatever the environment holds, and no step is made twice. *)
Theorem handler_B_no_retry {W} (rt : Runtime W) event w :
  exists n, (1 <= n <= 3)%nat /\
    steps (trace (invoke (CreateExport.handler rt event) w).2) =
    take n [CreateStep; WaitStep; ExportStep].
Proof.
  destruct (handler_B_run rt event w); cbn [snd trace].
  - exists 1%nat. split; [lia|done].
  - exists 2%nat. split; [lia|done].
  - exists 2%nat. split; [lia|done].
Qed.

(** X4. With no [SNAPSHOT_NAME] in the environment the handler does not
    stop: the create is requested with the snapshot identifier undefined,
    and an export request, when the run gets there, is named
    [undefined-export-<milliseconds>]. *)
Theorem handler_B_missing_snapshot_name {W} (rt : Runtime W) event w :
  process_env rt w !! "SNAPSHOT_NAME" = None ->
  (exists input o,
     head (trace (invoke (CreateExport.handler rt event) w).2) =
       Some (mkEvent (CreateDBClusterSnapshotCommand input) o) /\
     CreateDBClusterSnapshot.DBClusterSnapshotIdentifier input = None) /\
  (forall input o,
     mkEvent (ExportDBClusterSnapshotToS3Command input) o
       ∈ trace (invoke (CreateExport.handler rt event) w).2 ->
     exists t, ExportDBClusterSnapshotToS3.ExportTaskIdentifier input =
                 "undefined-export-" +:+ number_to_string t).
Proof.
  intros Hnone. split.
  - destruct (handler_B_run rt event w); cbn [snd trace head];
      eexists _, _; (split; [reflexivity|]); cbn; by rewrite Hnone.
  - intros input o Hin.
    apply handler_B_identifier_time_aux in Hin as (t & ->).
    exists t. by rewrite Hnone.
Qed.

Lemma export_failed_body reason :
  body (export_failed reason) =
  ("{" +:+ QuoteJSONString "message" +:+ ":" +:+ QuoteJSONString CreateExport.failure_message
       +:+ "," +:+ QuoteJSONString "error" +:+ ":" +:+ dquote)
  +:+ (quote_chars (err_message reason) +:+ dquote) +:+ "}".
Proof. reflexivity. Qed.

Lemma export_failed_inj e1 e2 :
  body (export_failed e1) = body (export_failed e2) -> err_message e1 = err_message e2.
Proof.
  rewrite !export_failed_body. intros H%string_app_inv_head.
  rewrite !string_app_assoc in H.
  apply (f_equal unquote_chars) in H. rewrite !unquote_quote_chars in H.
  by injection H.
Qed.

(** X5. Two failed invocations of the create-wait-export handler return the
    same response exactly when the errors that ended them have the same
    message: the response tells the message, and neither the step that
    failed nor any other property of the error (its name, for one). *)
Theorem handler_B_failure_response {W1 W2} (rt1 : Runtime W1) (rt2 : Runtime W2)
    event1 w1 event2 w2 r1 reason1 r2 reason2 :
  mkEvent r1 (Rejected reason1) ∈ trace (invoke (CreateExport.handler rt1 event1) w1).2 ->
  mkEvent r2 (Rejected reason2) ∈ trace (invoke (CreateExport.handler rt2 event2) w2).2 ->
  (invoke (CreateExport.handler rt1 event1) w1).1 =
    (invoke (CreateExport.handler rt2 event2) w2).1 <->
  err_message reason1 = err_message reason2.
Proof.
  intros H1%handler_B_rejected H2%handler_B_rejected. rewrite H1, H2. split.
  - intros H. apply export_failed_inj.
    exact (f_equal (fun c => match c with Normal r => body r | Thrown _ => "" end) H).
  - intros H. unfold export_failed. by rewrite H.
Qed.

Lemma or_else_empty_is_missing (env : gmap string string) (name k : string) :
  or_else (<[name := ""]> env !! k) "" = or_else (delete name env !! k) "".
Proof.
  destruct (decide (name = k)) as [->|Hne].
  - by rewrite lookup_insert_eq, lookup_delete_eq.
  - by rewrite lookup_insert_ne, lookup_delete_ne.
Qed.

(** X6. The module of the start-export handler takes a variable that is set
    to the empty string for a variable that is not set. *)
Theorem load_empty_is_missing (env : gmap string string) (name : string) :
  StartExport.load (<[name := ""]> env) = StartExport.load (delete name env).
Proof. unfold StartExport.load. by rewrite !or_else_empty_is_missing. Qed.

Lemma string_length_app a b : String.length (a +:+ b) = (String.length a + String.length b)%nat.
Proof. induction a as [|c a IH]; simpl; [done|]. by rewrite IH. Qed.

Lemma four_digit_year_of_year t : 0 <= YearFromTime t <= 9999 -> four_digit_year t.
Proof.
  intros [Hlo Hhi]. split.
  - apply YearFromTime_largest in Hlo. by vm_compute in Hlo.
  - destruct (Z_lt_le_dec 253402300799999 t) as [Hlt|]; [|done].
    assert (10000 <= YearFromTime t); [|lia].
    apply YearFromTime_largest. vm_compute (TimeFromYear 10000). lia.
Qed.

(** X7. The identifier of the start-export handler is [snapshot] followed
    by seventeen digits exactly for the time values of the years 0000 to
    9999: before them the year takes six digits, after them a sign and six
    digits. *)
Theorem exportTaskIdentifier_17_digits_iff t :
  snapshot_and_digits 17 (StartExport.exportTaskIdentifier t) <-> four_digit_year t.
Proof.
  split; [|apply exportTaskIdentifier_17_digits].
  intros (ds & Heq & Hlen & _).
  apply four_digit_year_of_year.
  apply (f_equal String.length) in Heq.
  rewrite exportTaskIdentifier_length, string_length_app, Hlen in Heq.
  destruct (Z.leb_spec 0 (YearFromTime t)); [destruct (Z.leb_spec (YearFromTime t) 9999)|];
    cbn [andb] in Heq; [lia|discriminate Heq..].
Qed.

Lemma string_mem_app c a b : string_mem c (a +:+ b) = string_mem c a || string_mem c b.
Proof. induction a as [|x a IH]; simpl; [done|]. by rewrite IH, orb_assoc. Qed.

Lemma string_mem_remove_chars c cls s :
  c ∈ cls -> string_mem c (remove_chars cls s) = false.
Proof.
  intros Hc. induction s as [|x s IH]; simpl; [done|].
  case_bool_decide as Hx; [done|]. simpl. rewrite IH, orb_false_r.
  apply Ascii.eqb_neq. by intros ->.
Qed.

(** A decimal numeral has no letter [t] in it. *)
Lemma number_to_string_no_t n : string_mem "t" (number_to_string n) = false.
Proof.
  assert (forall d, string_mem "t" (NilEmpty.string_of_uint d) = false) as Hu
    by (induction d; simpl; auto).
  assert (forall d, string_mem "t" (NilZero.string_of_uint d) = false) as Hz
    by (destruct d; try apply Hu; reflexivity).
  unfold number_to_string. destruct (Z.to_int n); simpl; auto.
Qed.

Lemma number_to_string_inj n1 n2 : number_to_string n1 = number_to_string n2 -> n1 = n2.
Proof.
  unfold number_to_string. intros H. apply to_int_inj.
  assert (forall n, NilZero.int_of_string (NilZero.string_of_int (Z.to_int n)) = Some (Z.to_int n)) as Hn.
  { intros n. apply NilZero.isi; destruct n as [|p|p]; simpl; try discriminate;
      intros [= Hp]; by destruct (Unsigned.to_uint_nonnil p). }
  apply (f_equal NilZero.int_of_string) in H. rewrite !Hn in H. by injection H.
Qed.

(** Two texts that end in [c] and a part without [c] are equal only part by
    part. *)
Lemma string_split_at_last c x y n1 n2 :
  string_mem c n1 = false -> string_mem c n2 = false ->
  x +:+ String c n1 = y +:+ String c n2 -> x = y /\ n1 = n2.
Proof.
  intros H1 H2. revert y. induction x as [|a x IH]; intros [|b y]; simpl; intros H.
  - by injection H.
  - injection H as -> ->. rewrite string_mem_app in H1. simpl in H1.
    rewrite Ascii.eqb_refl, orb_true_r in H1. discriminate H1.
  - injection H as <- <-. rewrite string_mem_app in H2. simpl in H2.
    rewrite Ascii.eqb_refl, orb_true_r in H2. discriminate H2.
  - injection H as -> H. by apply IH in H as [-> ->].
Qed.

Lemma string_app_inv_tail a b c : a +:+ c = b +:+ c -> a = b.
Proof.
  revert b. induction a as [|x a IH]; intros [|y b]; simpl; intros H.
  - done.
  - apply (f_equal String.length) in H. simpl in H. rewrite string_length_app in H. lia.
  - apply (f_equal String.length) in H. simpl in H. rewrite string_length_app in H. lia.
  - injection H as -> H. by rewrite (IH b H).
Qed.

(** X8. The identifier of an export request of the create-wait-export
    handler tells the snapshot name, as the template renders it, and the
    time value: two identifiers are equal only when both are. *)
Theorem CreateExport_exportTaskIdentifier_inj snapshotName1 t1 snapshotName2 t2 :
  CreateExport.exportTaskIdentifier snapshotName1 t1 =
    CreateExport.exportTaskIdentifier snapshotName2 t2 <->
  template_hole snapshotName1 = template_hole snapshotName2 /\ t1 = t2.
Proof.
  unfold CreateExport.exportTaskIdentifier. split; [|by intros [-> ->]].
  intros H.
  change (template_hole snapshotName1 +:+ "-expor" +:+ String "t" ("-" +:+ number_to_string t1) =
          template_hole snapshotName2 +:+ "-expor" +:+ String "t" ("-" +:+ number_to_string t2)) in H.
  rewrite <- !string_app_assoc in H.
  apply string_split_at_last in H as [Hs Hn];
    [|by rewrite string_mem_app, number_to_string_no_t..].
  split.
  - by apply string_app_inv_tail in Hs.
  - injection Hn as Hn. by apply number_to_string_inj.
Qed.

(** X9. An identifier of the start-export handler is never an identifier of
    the create-wait-export handler: the first has no hyphen left in it, the
    second has the hyphens of [-export-]. *)
Theorem identifiers_of_the_handlers_differ t snapshotName t' :
  StartExport.exportTaskIdentifier t <> CreateExport.exportTaskIdentifier snapshotName t'.
Proof.
  intros H. apply (f_equal (string_mem "-")) in H.
  unfold StartExport.exportTaskIdentifier, CreateExport.exportTaskIdentifier in H.
  rewrite !string_mem_app, string_mem_remove_chars in H by apply list_elem_of_here.
  simpl in H. rewrite orb_true_r in H. discriminate H.
Qed.

Lemma handler_B_catch_block {W} (rt : Runtime W) event :
  CreateExport.handler rt event =
  (dbClusterIdentifier ← getenv rt "DB_CLUSTER_IDENTIFIER";
   snapshotName ← getenv rt "SNAPSHOT_NAME";
   s3BucketName ← getenv rt "S3_BUCKET_NAME";
   exportIamRoleArn ← getenv rt "IAM_ROLE_ARN";
   kmsKeyId ← getenv rt "KMS_KEY_ID";
   try_catch
     (await rt (CreateDBClusterSnapshotCommand
                  (CreateExport.createSnapshotParams dbClusterIdentifier snapshotName));;
      await rt (waitUntilDBClusterSnapshotAvailable CreateExport.waiterParams
                  (CreateExport.waiterInput dbClusterIdentifier snapshotName));;
      t ← Date_now rt;
      command ← lift (construct "ExportDBClusterSnapshotToS3Command"
                  (ExportDBClusterSnapshotToS3Command
                     (CreateExport.exportParams snapshotName s3BucketName exportIamRoleArn
                        kmsKeyId t)));
      exportResult ← await rt command;
      mret {| statusCode := 200;
              body := JSON_stringify_object
                [("message", JsString CreateExport.success_message);
                 ("exportTaskIdentifier",
                  default JsUndefined (own_property "ExportTaskIdentifier" exportResult))] |})
     create_export_catch).
Proof. reflexivity. Qed.

(** X10. The catch block of the create-wait-export handler reads
    [message] off whatever was thrown. For an [Error] the body carries its
    message. For a thrown string the body has no [error] key. For
    [undefined] and [null] the read throws a [TypeError]: the block does
    not return a response. *)
Theorem create_export_catch_cases {W} (st : Exec W) :
  (forall reason,
     create_export_catch (error_value reason) st = (Normal (export_failed reason), st)) /\
  (forall s,
     create_export_catch (JsString s) st =
       (Normal {| statusCode := 500;
                  body := JSON_stringify_object
                    [("message", JsString CreateExport.failure_message)] |}, st)) /\
  (exists e, create_export_catch JsUndefined st = (Thrown e, st)) /\
  (exists e, create_export_catch JsNull st = (Thrown e, st)).
Proof. split_and!; [done..|by eexists|by eexists]. Qed.

Lemma compare_digit a b :
  Ascii.compare (digit (a mod 10)) (digit (b mod 10)) = (a mod 10 ?= b mod 10).
Proof.
  apply (mod_10_ind (fun x => Ascii.compare (digit x) (digit (b mod 10)) = (x ?= b mod 10))).
  intros j Hj.
  apply (mod_10_ind (fun y => Ascii.compare (digit (Z.of_nat j)) (digit y) = (Z.of_nat j ?= y))).
  intros k Hk.
  each_digit j ltac:(each_digit k ltac:(reflexivity)).
Qed.

Ltac compare_cases :=
  repeat match goal with
  | |- context [?x ?= ?y] => destruct (Z.compare_spec x y)
  end; try reflexivity; zdiv.

(** Zero-padded numerals of one width compare as their numbers do. *)
Lemma compare_pad2 a b r1 r2 :
  String.compare (pad2 a +:+ r1) (pad2 b +:+ r2) =
  match a mod 100 ?= b mod 100 with Eq => String.compare r1 r2 | c => c end.
Proof.
  unfold pad2. cbn [String.append String.compare]. rewrite !compare_digit.
  generalize (String.compare r1 r2). intros c. compare_cases.
Qed.

Lemma compare_pad3 a b r1 r2 :
  String.compare (pad3 a +:+ r1) (pad3 b +:+ r2) =
  match a mod 1000 ?= b mod 1000 with Eq => String.compare r1 r2 | c => c end.
Proof.
  unfold pad3. cbn [String.append String.compare]. rewrite compare_digit, compare_pad2.
  generalize (String.compare r1 r2). intros c. compare_cases.
Qed.

Lemma compare_pad4 a b r1 r2 :
  String.compare (pad4 a +:+ r1) (pad4 b +:+ r2) =
  match a mod 10000 ?= b mod 10000 with Eq => String.compare r1 r2 | c => c end.
Proof.
  unfold pad4. cbn [String.append String.compare]. rewrite compare_digit, compare_pad3.
  generalize (String.compare r1 r2). intros c. compare_cases.
Qed.

Lemma YearFromTime_mono t1 t2 : t1 <= t2 -> YearFromTime t1 <= YearFromTime t2.
Proof.
  intros H. apply YearFromTime_largest.
  assert (TimeFromYear (YearFromTime t1) <= t1) by (by apply YearFromTime_largest).
  lia.
Qed.

(** Within one year the month and the date grow with the day. *)
Lemma month_date_order t1 t2 :
  YearFromTime t1 = YearFromTime t2 -> Day t1 <= Day t2 ->
  MonthFromTime t1 < MonthFromTime t2 \/
  MonthFromTime t1 = MonthFromTime t2 /\
    (DateFromTime t1 < DateFromTime t2 \/
     DateFromTime t1 = DateFromTime t2 /\ Day t1 = Day t2).
Proof.
  intros Hy Hd.
  assert (InLeapYear t1 = InLeapYear t2) as Hl by (unfold InLeapYear; by rewrite Hy).
  assert (DayWithinYear t1 <= DayWithinYear t2) as Hw
    by (unfold DayWithinYear; rewrite Hy; lia).
  assert (Day t1 = Day t2 <-> DayWithinYear t1 = DayWithinYear t2) as Hiff
    by (unfold DayWithinYear; rewrite Hy; lia).
  pose proof (InLeapYear_cases t2).
  unfold DateFromTime, MonthFromTime. rewrite Hl.
  generalize dependent (DayWithinYear t1). generalize dependent (DayWithinYear t2).
  intros d2 d1 Hw Hiff.
  repeat (match goal with |- context [?a <? ?b] => destruct (Z.ltb_spec a b) end; try lia).
Qed.

(** Within one day the hour, minute, second and millisecond grow with the
    time value. *)
Lemma time_fields_order t1 t2 :
  Day t1 = Day t2 -> t1 < t2 ->
  HourFromTime t1 < HourFromTime t2 \/
  HourFromTime t1 = HourFromTime t2 /\
    (MinFromTime t1 < MinFromTime t2 \/
     MinFromTime t1 = MinFromTime t2 /\
       (SecFromTime t1 < SecFromTime t2 \/
        SecFromTime t1 = SecFromTime t2 /\ msFromTime t1 < msFromTime t2)).
Proof.
  unfold Day, HourFromTime, MinFromTime, SecFromTime, msFromTime,
    msPerDay, msPerHour, msPerMinute, msPerSecond.
  intros. zdiv.
Qed.

Lemma compare_Lt a b : a < b -> (a ?= b) = Lt.
Proof. apply Z.compare_lt_iff. Qed.

Lemma string_app_nil_r s : s +:+ "" = s.
Proof. induction s as [|c s IH]; simpl; [done|]. by rewrite IH. Qed.

Lemma compare_app_same p a b :
  String.compare (p +:+ a) (p +:+ b) = String.compare a b.
Proof.
  induction p as [|c p IH]; simpl; [done|].
  unfold Ascii.compare. by rewrite N.compare_refl.
Qed.

(** X11. For clocks in the years 0000 to 9999 the identifiers of the
    start-export handler sort as the time values do: a later invocation
    has an identifier that is greater in the order of strings. *)
Theorem exportTaskIdentifier_chronological t1 t2 :
  four_digit_year t1 -> four_digit_year t2 -> t1 < t2 ->
  String.compare (StartExport.exportTaskIdentifier t1) (StartExport.exportTaskIdentifier t2) = Lt.
Proof.
  intros H1 H2 Hlt.
  pose proof (four_digit_year_spec t1 H1) as Hy1.
  pose proof (four_digit_year_spec t2 H2) as Hy2.
  rewrite !exportTaskIdentifier_four_digit_year by done.
  rewrite compare_app_same. unfold after_year.
  rewrite <- (string_app_nil_r (pad3 (msFromTime t1))), <- (string_app_nil_r (pad3 (msFromTime t2))).
  rewrite compare_pad4, !compare_pad2, compare_pad3.
  pose proof (MonthFromTime_bounds t1). pose proof (MonthFromTime_bounds t2).
  pose proof (DateFromTime_bounds t1). pose proof (DateFromTime_bounds t2).
  assert (forall t, 0 <= HourFromTime t < 24) as Hh by (intros; unfold HourFromTime; zdiv).
  assert (forall t, 0 <= MinFromTime t < 60) as Hm by (intros; unfold MinFromTime; zdiv).
  assert (forall t, 0 <= SecFromTime t < 60) as Hs by (intros; unfold SecFromTime; zdiv).
  assert (forall t, 0 <= msFromTime t < 1000) as Hms
    by (intros; unfold msFromTime, msPerSecond; zdiv).
  pose proof (Hh t1). pose proof (Hh t2). pose proof (Hm t1). pose proof (Hm t2).
  pose proof (Hs t1). pose proof (Hs t2). pose proof (Hms t1). pose proof (Hms t2).
  rewrite !Z.mod_small by lia.
  assert (YearFromTime t1 <= YearFromTime t2) as Hy by (apply YearFromTime_mono; lia).
  destruct (Z.eq_dec (YearFromTime t1) (YearFromTime t2)) as [Heq|Hne];
    [|by rewrite compare_Lt by lia].
  rewrite Heq, Z.compare_refl.
  assert (Day t1 <= Day t2) as Hd by (unfold Day, msPerDay; zdiv).
  destruct (month_date_order t1 t2 Heq Hd) as [Hm'|[Hm' [Hd'|[Hd' Hday]]]].
  { by rewrite compare_Lt by lia. }
  { rewrite Hm', Z.compare_refl. by rewrite compare_Lt by lia. }
  rewrite Hm', Hd', !Z.compare_refl.
  destruct (time_fields_order t1 t2 Hday Hlt) as [E|[-> [E|[-> [E|[-> E]]]]]];
    rewrite ?Z.compare_refl; by rewrite compare_Lt by lia.
Qed.

(** * The further properties at concrete worlds *)

Lemma handler_B_missing_snapshot_name_witness :
  let w := world_at (delete "SNAPSHOT_NAME" env_create_export) clock_2025 [] in
  let run := invoke (CreateExport.handler scripted JsNull) w in
  (exists input o,
     head (trace run.2) = Some (mkEvent (CreateDBClusterSnapshotCommand input) o) /\
     CreateDBClusterSnapshot.DBClusterSnapshotIdentifier input = None) /\
  (forall input o,
     mkEvent (ExportDBClusterSnapshotToS3Command input) o ∈ trace run.2 ->
     exists t, ExportDBClusterSnapshotToS3.ExportTaskIdentifier input =
                 "undefined-export-" +:+ number_to_string t).
Proof.
  apply (handler_B_missing_snapshot_name scripted JsNull
           (world_at (delete "SNAPSHOT_NAME" env_create_export) clock_2025 [])).
  by vm_compute.
Defined.

Lemma handler_B_failure_response_witness :
  let w1 := world_at env_create_export clock_2025 [Resolved []; Rejected timeout_error] in
  let w2 := world_at env_create_export clock_2025 [Rejected (mkError "Waiter has timed out" [])] in
  (invoke (CreateExport.handler scripted JsNull) w1).1 =
    (invoke (CreateExport.handler scripted JsNull) w2).1 <->
  err_message timeout_error = err_message (mkError "Waiter has timed out" []).
Proof.
  apply (handler_B_failure_response scripted scripted
           JsNull (world_at env_create_export clock_2025 [Resolved []; Rejected timeout_error])
           JsNull (world_at env_create_export clock_2025
                     [Rejected (mkError "Waiter has timed out" [])])
           (wait_request env_create_export) timeout_error
           (create_request env_create_export) (mkError "Waiter has timed out" [])).
  - vm_compute. apply list_elem_of_further, list_elem_of_here.
  - vm_compute. apply list_elem_of_here.
Defined.

Lemma exportTaskIdentifier_chronological_witness :
  String.compare (StartExport.exportTaskIdentifier clock_2025)
    (StartExport.exportTaskIdentifier (clock_2025 + 1)) = Lt.
Proof.
  apply (exportTaskIdentifier_chronological clock_2025 (clock_2025 + 1)).
  - vm_compute. split; discriminate.
  - vm_compute. split; discriminate.
  - vm_compute. reflexivity.
Defined.

Example unquote_chars_reads_back :
  unquote_chars (quote_chars ("a" +:+ dquote +:+ "b\c") +:+ dquote +:+ "}") =
  Some ("a" +:+ dquote +:+ "b\c", "}").
Proof. reflexivity. Qed.
